(** * abogen_gradio: the signal/thread shim and the conversion handler

    A shallow embedding of [abogen_gradio.py]: the [MockSignal]
    notification channel, the log accumulator [log_callback] and the
    web handler [run_conversion], together with the properties the
    specification states about them.

    Python values are embedded as the inductive [PyVal]; statements that
    may raise run in a small state-and-exception monad [M]; everything
    the handler obtains from the conversion engine or the operating
    system (pipeline loading, directory creation, the engine's thread
    body, ...) is a field of the record [Env].  The four signals are
    objects of the process, shared by all jobs: a job finds on them the
    closures the jobs before it connected. *)

From Stdlib Require Import List String Ascii ZArith Lia Bool Arith.
From Stdlib Require Import DecimalString.
Import ListNotations.
Open Scope string_scope.
Open Scope list_scope.

Set Warnings "-register-all".

(** ** Python values and exceptions *)

(** The values that travel through the signals.  [PObj] is any other
    object, carried with what [str()] and [bool()] make of it. *)
Inductive PyVal : Type :=
| PNone
| PInt (z : Z)
| PStr (s : string)
| PTuple (items : list PyVal)
| PObj (shown : string) (truth : bool).

(** An instance of Python's [Exception]: its class name and [str(e)].
    Both [except] clauses of the program are [except Exception], so
    these are exactly the faults they catch. *)
Record exn : Type := Exn { exn_class : string; exn_str : string }.

(** [bool(v)] as the [if] statement evaluates it. *)
Definition py_truthy (v : PyVal) : bool :=
  match v with
  | PNone => false
  | PInt z => negb (Z.eqb z 0)
  | PStr s => negb (String.eqb s "")
  | PTuple items => match items with [] => false | _ :: _ => true end
  | PObj _ truth => truth
  end.

(** [str(v)]; [repr] gives Python's [repr] of a tuple, which is what
    [str] of a tuple is. *)
Definition py_str (repr : PyVal -> string) (v : PyVal) : string :=
  match v with
  | PNone => "None"
  | PInt z => NilZero.string_of_int (Z.to_int z)
  | PStr s => s
  | PTuple _ => repr v
  | PObj shown _ => shown
  end.

(** The one-character string of a line feed. *)
Definition newline : string := String (ascii_of_nat 10) EmptyString.

(** [sep.join(lines)] *)
Definition py_join (sep : string) (lines : list string) : string :=
  String.concat sep lines.

(** [l[-n:]] for a list [l] and [n > 0]. *)
Definition py_last {A : Type} (n : nat) (l : list A) : list A :=
  skipn (List.length l - n) l.

(** ** Statements: state, exceptions, blocking *)

(** How a statement ends: normally with a value, by raising an
    exception, or never (the thread of control stays blocked). *)
Inductive Res (A : Type) : Type :=
| Normal (a : A)
| Raise (e : exn)
| Hang.
Arguments Normal {A} a.
Arguments Raise {A} e.
Arguments Hang {A}.

Definition M (St A : Type) : Type := St -> Res A * St.

Definition ret {St A : Type} (a : A) : M St A := fun s => (Normal a, s).

Definition bind {St A B : Type} (m : M St A) (k : A -> M St B) : M St B :=
  fun s =>
    match m s with
    | (Normal a, s') => k a s'
    | (Raise e, s') => (Raise e, s')
    | (Hang, s') => (Hang, s')
    end.

Definition raise {St A : Type} (e : exn) : M St A := fun s => (Raise e, s).

(** [try: body  except Exception as e: handler(e)]; what the body did to
    the state before raising stays done. *)
Definition try_except {St A : Type} (body : M St A) (handler : exn -> M St A)
  : M St A :=
  fun s =>
    match body s with
    | (Raise e, s') => handler e s'
    | other => other
    end.

Definition modify {St : Type} (f : St -> St) : M St unit :=
  fun s => (Normal tt, f s).

Definition gets {St A : Type} (f : St -> A) : M St A :=
  fun s => (Normal (f s), s).

Declare Scope py_scope.
Delimit Scope py_scope with py.
Notation "x <- m ;; k" := (bind m (fun x => k))
  (at level 100, m at next level, right associativity) : py_scope.
Notation "m ;; k" := (bind m (fun _ => k))
  (at level 100, right associativity) : py_scope.
Open Scope py_scope.

(** ** MockSignal *)

Module MockSignal.

(** [self.callbacks], in the order of registration. *)
Record t (Cb : Type) : Type := Build { callbacks : list Cb }.
Arguments Build {Cb} callbacks.
Arguments callbacks {Cb} _.

(** [__init__] *)
Definition init {Cb : Type} : t Cb := Build [].

(** [connect]: [self.callbacks.append(callback)] *)
Definition connect {Cb : Type} (self : t Cb) (callback : Cb) : t Cb :=
  Build (callbacks self ++ [callback]).

Section Emit.
Context {St Cb : Type}.
(** What calling a subscriber with the positional arguments does:
    the exception it raises, if any, and the state it leaves.  [emit]
    goes through the subscribers it finds when it starts: no
    subscriber of this program connects another while [emit] runs. *)
Variable call : Cb -> list PyVal -> St -> option exn * St.
(** [print(line)] *)
Variable print : string -> St -> St.

Definition invoke (callback : Cb) (args : list PyVal) : M St unit :=
  fun s =>
    match call callback args s with
    | (None, s') => (Normal tt, s')
    | (Some e, s') => (Raise e, s')
    end.

Definition report (e : exn) : string :=
  ("Error in mock signal callback: " ++ exn_str e)%string.

(** The body of the [for] loop. *)
Definition deliver (callback : Cb) (args : list PyVal) : M St unit :=
  try_except (invoke callback args) (fun e => modify (print (report e))).

Fixpoint for_each (cbs : list Cb) (args : list PyVal) : M St unit :=
  match cbs with
  | [] => ret tt
  | callback :: rest => deliver callback args ;; for_each rest args
  end.

(** [emit]: every subscriber is called with the arguments of [emit]. *)
Definition emit (self : t Cb) (args : list PyVal) : M St unit :=
  for_each (callbacks self) args.

(** The state one delivery leaves. *)
Definition after_delivery (args : list PyVal) (s : St) (callback : Cb) : St :=
  match call callback args s with
  | (None, s') => s'
  | (Some e, s') => print (report e) s'
  end.
End Emit.

(** A probe around the subscribers: the state is extended with a
    journal of the calls made (subscriber, arguments, fault raised)
    and of the lines printed. *)
Section Probe.
Context {St Cb : Type}.
Variable call : Cb -> list PyVal -> St -> option exn * St.
Variable print : string -> St -> St.

Record Call : Type := MkCall {
  callee : Cb;
  passed : list PyVal;
  fault : option exn
}.

Record Probed : Type := MkProbed {
  inner : St;
  calls : list Call;
  printed : list string
}.

Definition probe_call (callback : Cb) (args : list PyVal) (p : Probed)
  : option exn * Probed :=
  let '(r, s') := call callback args (inner p) in
  (r, MkProbed s' (calls p ++ [MkCall callback args r]) (printed p)).

Definition probe_print (line : string) (p : Probed) : Probed :=
  MkProbed (print line (inner p)) (calls p) (printed p ++ [line]).

(** The reports owed for a journal of calls. *)
Fixpoint reports_of (cs : list Call) : list string :=
  match cs with
  | [] => []
  | c :: rest =>
      match fault c with
      | Some e => report e :: reports_of rest
      | None => reports_of rest
      end
  end.
End Probe.

End MockSignal.

(** ** Strings *)

(** [str.isspace] on one character.  A character stands for the code
    point of the same number (below 256). *)
Definition is_space (c : ascii) : bool :=
  let n := nat_of_ascii c in
  (((9 <=? n) && (n <=? 13)) || ((28 <=? n) && (n <=? 32))
   || (n =? 133) || (n =? 160))%nat.

Fixpoint lstrip (s : string) : string :=
  match s with
  | EmptyString => EmptyString
  | String c rest => if is_space c then lstrip rest else s
  end.

Fixpoint rstrip (s : string) : string :=
  match s with
  | EmptyString => EmptyString
  | String c rest =>
      match rstrip rest with
      | EmptyString => if is_space c then EmptyString else String c EmptyString
      | kept => String c kept
      end
  end.

(** [s.strip()] *)
Definition strip (s : string) : string := rstrip (lstrip s).

(** [s.split(sep)[0]] for a non-empty [sep]: what precedes the first
    occurrence of [sep], or all of [s] when there is none. *)
Fixpoint split_head (sep s : string) : string :=
  match s with
  | EmptyString => EmptyString
  | String c rest =>
      if String.prefix sep s then EmptyString
      else String c (split_head sep rest)
  end.

Fixpoint ends_with_slash (s : string) : bool :=
  match s with
  | EmptyString => false
  | String c EmptyString => Ascii.eqb c "/"%char
  | String _ rest => ends_with_slash rest
  end.

(** [os.path.join(a, b)] (posix) for a relative [b]. *)
Definition os_path_join (a b : string) : string :=
  if String.eqb a "" || ends_with_slash a
  then (a ++ b)%string else (a ++ "/" ++ b)%string.

(** ** The handler's data *)

(** The object Gradio passes for an uploaded file. *)
Record UploadedFile : Type := { name : string }.

(** The arguments of [run_conversion] ([progress] is in [Env]), as the
    form hands them over: the text box and the dropdown give [str]
    values.  An invocation with [None] for [language_str] or
    [text_input] raises at line 142 or 150, before either [try]; it is
    not an [Inputs]. *)
Record Inputs : Type := {
  text_input : string;
  file_input : option UploadedFile;
  language_str : string;
  voice : string;
  speed : PyVal;
  output_format : string;
  subtitle_mode : string;
  subtitle_format : string;
  split_pattern : string
}.

(** The keyword arguments of [ConversionThread(...)]. *)
Record JobArgs : Type := {
  arg_file_name : string;
  arg_lang_code : string;
  arg_speed : PyVal;
  arg_voice : string;
  arg_save_option : string;
  arg_output_folder : string;
  arg_subtitle_mode : string;
  arg_output_format : string;
  arg_np_module : PyVal;
  arg_kpipeline_class : PyVal;
  arg_start_time : PyVal;
  arg_total_char_count : nat;
  arg_use_gpu : bool;
  arg_from_queue : bool
}.

(** The four closures [run_conversion] subscribes. *)
Inductive Callback : Type :=
| on_finished
| on_log
| on_progress
| on_chapters_detected.

(** The signals of the engine's thread object that the handler uses. *)
Inductive Channel : Type :=
| conversion_finished
| log_updated
| progress_updated
| chapters_detected.

(** The thread object.  An attribute the handler assigns is [None]
    until assigned; [chapter_options_event] is the flag of the
    [threading.Event] [_chapter_options_event].  The signals are not
    part of the object: a signal is declared on the class with
    [pyqtSignal], which is [MockSignal] here (line 63), so that every
    thread object has the same four signal objects; they are in
    [State]. *)
Record ConversionThread : Type := {
  args : JobArgs;
  is_direct_text : option bool;
  thread_subtitle_format : option string;
  merge_chapters_at_end : option bool;
  save_chapters_separately : option bool;
  replace_single_newlines : option bool;
  chapter_options_event : bool;
  started : bool
}.

(** [result_container] *)
Record Container : Type := { status : PyVal; path : PyVal }.

(** The locals [thread] and [result_container] of one invocation of
    [run_conversion], which its closures capture ([None]: unbound). *)
Record Frame : Type := {
  frame_thread : option ConversionThread;
  frame_container : option Container
}.

(** Whose locals a closure captured: those of the invocation that is
    running, or those of an earlier one, kept in [earlier]. *)
Inductive Owner : Type :=
| Own
| Old (k : nat).

(** A subscriber: one of the four closures of some invocation. *)
Record Closure : Type := { kind : Callback; owner : Owner }.

(** The global [logs]; the lines printed; the four signal objects,
    which outlive every job; the locals of the earlier invocations,
    which their closures keep alive; the locals [thread] and
    [result_container] of the running invocation. *)
Record State : Type := {
  logs : list string;
  stdout : list string;
  signals : Channel -> MockSignal.t Closure;
  earlier : list Frame;
  thread : option ConversionThread;
  result_container : option Container
}.

(** A statement of the engine's [run]: [self.<signal>.emit(...)] or
    [self._chapter_options_event.wait()]. *)
Inductive EngineStep : Type :=
| Emit (ch : Channel) (payload : list PyVal)
| WaitChapterOptions.

(** What the handler gets from outside this file. *)
Record Env : Type := {
  (** [load_numpy_kpipeline()]: the fault raised, or the two results *)
  load_numpy_kpipeline : exn + (PyVal * PyVal);
  (** [os.getcwd()], when it returns; line 167 stands outside both
      [try] blocks, like [os.makedirs] after it *)
  getcwd : string;
  (** [os.makedirs(folder, exist_ok=True)]: the fault raised, if any *)
  makedirs : string -> option exn;
  (** [time.time()] *)
  time_time : PyVal;
  (** [float(v)] *)
  py_float : PyVal -> exn + PyVal;
  (** the fault [ConversionThread.__init__] raises, if any *)
  init_fault : JobArgs -> option exn;
  (** the fault [Thread.start] raises, if any *)
  start_fault : option exn;
  (** the engine's [run] on the thread object as it is when started:
      the statements it executes and the fault that ends it, if any *)
  engine_run : ConversionThread -> list EngineStep * option exn;
  (** [progress(p / 100.0, desc=desc)]: the fault raised, if any *)
  progress : PyVal -> string -> option exn;
  (** the [TypeError] of calling the named function with these arguments *)
  arity_error : string -> list PyVal -> exn;
  (** [repr(v)] *)
  py_repr : PyVal -> string;
  (** [traceback.format_exc()] while handling the fault *)
  format_exc : exn -> string
}.

(** ** State updates *)

Definition set_logs (l : list string) (s : State) : State :=
  {| logs := l; stdout := stdout s; signals := signals s;
     earlier := earlier s; thread := thread s;
     result_container := result_container s |}.

(** [print(line)] *)
Definition print (line : string) (s : State) : State :=
  {| logs := logs s; stdout := stdout s ++ [line]; signals := signals s;
     earlier := earlier s; thread := thread s;
     result_container := result_container s |}.

Definition set_signals (sigs : Channel -> MockSignal.t Closure) (s : State)
  : State :=
  {| logs := logs s; stdout := stdout s; signals := sigs;
     earlier := earlier s; thread := thread s;
     result_container := result_container s |}.

Definition set_earlier (frames : list Frame) (s : State) : State :=
  {| logs := logs s; stdout := stdout s; signals := signals s;
     earlier := frames; thread := thread s;
     result_container := result_container s |}.

Definition set_thread (t : option ConversionThread) (s : State) : State :=
  {| logs := logs s; stdout := stdout s; signals := signals s;
     earlier := earlier s; thread := t;
     result_container := result_container s |}.

Definition set_container (c : option Container) (s : State) : State :=
  {| logs := logs s; stdout := stdout s; signals := signals s;
     earlier := earlier s; thread := thread s;
     result_container := c |}.

(** Assignment of the attributes set after construction. *)
Definition set_attributes (direct : bool) (fmt : string) (t : ConversionThread)
  : ConversionThread :=
  {| args := args t;
     is_direct_text := Some direct;
     thread_subtitle_format := Some fmt;
     merge_chapters_at_end := Some true;
     save_chapters_separately := Some false;
     replace_single_newlines := Some false;
     chapter_options_event := chapter_options_event t;
     started := started t |}.

Definition channel_eqb (a b : Channel) : bool :=
  match a, b with
  | conversion_finished, conversion_finished => true
  | log_updated, log_updated => true
  | progress_updated, progress_updated => true
  | chapters_detected, chapters_detected => true
  | _, _ => false
  end.

(** [thread.<ch>.connect(cb)] on the signal objects [sigs]. *)
Definition connect_on (ch : Channel) (cb : Closure)
  (sigs : Channel -> MockSignal.t Closure) : Channel -> MockSignal.t Closure :=
  fun c => if channel_eqb c ch then MockSignal.connect (sigs c) cb else sigs c.

(** The three statements of [on_chapters_detected] after its [print]. *)
Definition accept_defaults (t : ConversionThread) : ConversionThread :=
  {| args := args t;
     is_direct_text := is_direct_text t;
     thread_subtitle_format := thread_subtitle_format t;
     merge_chapters_at_end := Some true;
     save_chapters_separately := Some false;
     replace_single_newlines := replace_single_newlines t;
     chapter_options_event := true;
     started := started t |}.

Definition mark_started (t : ConversionThread) : ConversionThread :=
  {| args := args t;
     is_direct_text := is_direct_text t;
     thread_subtitle_format := thread_subtitle_format t;
     merge_chapters_at_end := merge_chapters_at_end t;
     save_chapters_separately := save_chapters_separately t;
     replace_single_newlines := replace_single_newlines t;
     chapter_options_event := chapter_options_event t;
     started := true |}.

(** The object [ConversionThread(...)] returns: the event clear, not
    started. *)
Definition new_thread (a : JobArgs) : ConversionThread :=
  {| args := a;
     is_direct_text := None;
     thread_subtitle_format := None;
     merge_chapters_at_end := None;
     save_chapters_separately := None;
     replace_single_newlines := None;
     chapter_options_event := false;
     started := false |}.

(** The locals a closure captured, and their update. *)
Definition captured (o : Owner) (s : State) : option Frame :=
  match o with
  | Own => Some {| frame_thread := thread s;
                   frame_container := result_container s |}
  | Old k => nth_error (earlier s) k
  end.

Fixpoint replace_nth {A : Type} (k : nat) (x : A) (l : list A) : list A :=
  match l, k with
  | [], _ => []
  | _ :: rest, O => x :: rest
  | y :: rest, S k' => y :: replace_nth k' x rest
  end.

Definition update_captured (o : Owner) (fr : Frame) (s : State) : State :=
  match o with
  | Own => set_thread (frame_thread fr) (set_container (frame_container fr) s)
  | Old k => set_earlier (replace_nth k fr (earlier s)) s
  end.

(** ** The callbacks *)

(** What reading a closure variable that is not bound raises. *)
Definition name_error (var : string) : exn :=
  Exn "NameError"
      ("cannot access free variable '" ++ var ++
       "' where it is not associated with a value in enclosing scope")%string.

Definition index_error : exn := Exn "IndexError" "tuple index out of range".

(** [log_callback(msg)] *)
Definition log_callback (env : Env) (msg : PyVal) (s : State)
  : option exn * State :=
  let first :=
    match msg with
    | PTuple [] => inl index_error
    | PTuple (m :: _) => inr m
    | _ => inr msg
    end in
  match first with
  | inl e => (Some e, s)
  | inr m =>
      let appended := logs s ++ [py_str (py_repr env) m] in
      if (1000 <? List.length appended)%nat
      then (None, set_logs (py_last 1000 appended) s)
      else (None, set_logs appended s)
  end.

(** The closures, called with the positional arguments [payload]. *)
Definition call (env : Env) (cb : Closure) (payload : list PyVal) (s : State)
  : option exn * State :=
  match kind cb with
  | on_finished =>
      match payload with
      | [st; p] =>
          match captured (owner cb) s with
          | Some {| frame_thread := t; frame_container := Some _ |} =>
              (None,
               update_captured (owner cb)
                 {| frame_thread := t;
                    frame_container := Some {| status := st; path := p |} |} s)
          | _ => (Some (name_error "result_container"), s)
          end
      | _ => (Some (arity_error env "on_finished" payload), s)
      end
  | on_log =>
      match payload with
      | [msg] => log_callback env msg s
      | _ => (Some (arity_error env "on_log" payload), s)
      end
  | on_progress =>
      match payload with
      | [p; etr] =>
          (progress env p
             ("Processing... ETR: " ++ py_str (py_repr env) etr)%string, s)
      | _ => (Some (arity_error env "on_progress" payload), s)
      end
  | on_chapters_detected =>
      match payload with
      | [count] =>
          let s1 :=
            print ("Chapters detected: " ++ py_str (py_repr env) count)%string s in
          match captured (owner cb) s1 with
          | Some {| frame_thread := Some t; frame_container := c |} =>
              (None,
               update_captured (owner cb)
                 {| frame_thread := Some (accept_defaults t);
                    frame_container := c |} s1)
          | _ => (Some (name_error "thread"), s1)
          end
      | _ => (Some (arity_error env "on_chapters_detected" payload), s)
      end
  end.

(** ** The worker *)

(** One statement of the engine's [run].  [Event.wait()] returns at once
    when the flag is set and never when it is clear: nothing else sets
    it while the only thread that could is the one waiting. *)
Definition engine_step (env : Env) (st : EngineStep) : M State unit :=
  fun s =>
    match thread s with
    | None => (Raise (name_error "self"), s)
    | Some t =>
        match st with
        | Emit ch payload => MockSignal.emit (call env) print (signals s ch) payload s
        | WaitChapterOptions =>
            if chapter_options_event t then (Normal tt, s) else (Hang, s)
        end
    end.

Fixpoint run_steps (env : Env) (steps : list EngineStep) : M State unit :=
  match steps with
  | [] => ret tt
  | st :: rest => engine_step env st ;; run_steps env rest
  end.

(** The thread's [run]. *)
Definition worker_run (env : Env) : M State unit :=
  fun s =>
    match thread s with
    | None => (Raise (name_error "self"), s)
    | Some t =>
        let '(steps, final) := engine_run env t in
        (run_steps env steps ;;
         match final with
         | None => ret tt
         | Some e => raise e
         end) s
    end.

(** [threading.Thread.start]: the operating system may refuse the
    thread; otherwise it is started. *)
Definition Thread_start (env : Env) : M State unit :=
  fun s =>
    match thread s with
    | None => (Raise (name_error "thread"), s)
    | Some t =>
        match start_fault env with
        | Some e => (Raise e, s)
        | None => (Normal tt, set_thread (Some (mark_started t)) s)
        end
    end.

(** [threading.Thread.join].  The handler does nothing between [start]
    and [join], so the worker's statements are run here, to their end: a
    fault that ends [run] ends the worker only, and [join] returns; a
    worker that stays blocked keeps [join] from returning. *)
Definition Thread_join (env : Env) : M State unit :=
  fun s =>
    match worker_run env s with
    | (Normal _, s') => (Normal tt, s')
    | (Raise _, s') => (Normal tt, s')
    | (Hang, s') => (Hang, s')
    end.

Module MockQThread.

(** [start(priority=None)]: [super().start()] *)
Definition start (env : Env) : M State unit := Thread_start env.

(** [quit()]: [pass] *)
Definition quit : M State unit := ret tt.

(** [wait()]: [self.join()] *)
Definition wait (env : Env) : M State unit := Thread_join env.

End MockQThread.

(** ** run_conversion *)

(** [x = body()] under [try], with [except Exception as e: return
    handler(e)]; [k] is the rest of the function. *)
Definition try_or_return {St A B : Type}
  (body : M St A) (handler : exn -> B) (k : A -> M St B) : M St B :=
  fun s =>
    match body s with
    | (Normal a, s') => k a s'
    | (Raise e, s') => (Normal (handler e), s')
    | (Hang, s') => (Hang, s')
    end.

(** An outside call that raises or gives a value. *)
Definition outside {St A : Type} (r : exn + A) : M St A :=
  match r with
  | inl e => raise e
  | inr a => ret a
  end.

Definition outside_unit {St : Type} (r : option exn) : M St unit :=
  match r with
  | Some e => raise e
  | None => ret tt
  end.

(** Lines 144-157: the input of the job, [(file_name, is_direct_text)],
    or [None] when there is neither a file nor text. *)
Definition determine_input (inp : Inputs) : option (string * bool) :=
  match file_input inp with
  | Some f => Some (name f, false)
  | None =>
      if py_truthy (PStr (strip (text_input inp)))
      then Some (text_input inp, true)
      else None
  end.

(** With [thread] bound: update it in place. *)
Definition on_thread (f : ConversionThread -> ConversionThread) : M State unit :=
  fun s =>
    match thread s with
    | None => (Raise (name_error "thread"), s)
    | Some t => (Normal tt, set_thread (Some (f t)) s)
    end.

(** The keyword arguments of the constructor call (lines 177-192). *)
Definition job_args (env : Env) (inp : Inputs) (file_name : string)
  (direct : bool) (sp np kp : PyVal) (output_folder : string) : JobArgs :=
  {| arg_file_name := file_name;
     arg_lang_code := split_head " - " (language_str inp);
     arg_speed := sp;
     arg_voice := voice inp;
     arg_save_option := "Choose output folder";
     arg_output_folder := output_folder;
     arg_subtitle_mode := subtitle_mode inp;
     arg_output_format := output_format inp;
     arg_np_module := np;
     arg_kpipeline_class := kp;
     arg_start_time := time_time env;
     arg_total_char_count :=
       if direct then String.length (text_input inp) else 1000%nat;
     arg_use_gpu := true;
     arg_from_queue := false |}.

(** What the handler returns after [join] (lines 249-254). *)
Definition result_of (log_str : string) (c : Container) : string * PyVal :=
  if py_truthy (path c) then (log_str, path c) else (log_str, PNone).

(** [thread.<ch>.connect(cb)], [cb] a closure of this invocation. *)
Definition subscribe (ch : Channel) (cb : Callback) : M State unit :=
  fun s =>
    match thread s with
    | None => (Raise (name_error "thread"), s)
    | Some _ =>
        (Normal tt,
         set_signals (connect_on ch {| kind := cb; owner := Own |} (signals s)) s)
    end.

(** The body of the second [try] (lines 177-254). *)
Definition convert (env : Env) (inp : Inputs) (file_name : string)
  (direct : bool) (np kp : PyVal) (output_folder : string)
  : M State (string * PyVal) :=
  sp <- outside (py_float env (speed inp)) ;;
  let a := job_args env inp file_name direct sp np kp output_folder in
  outside_unit (init_fault env a) ;;
  modify (set_thread (Some (new_thread a))) ;;
  on_thread (set_attributes direct (subtitle_format inp)) ;;
  modify (set_container (Some {| status := PNone; path := PNone |})) ;;
  subscribe conversion_finished on_finished ;;
  subscribe log_updated on_log ;;
  subscribe progress_updated on_progress ;;
  subscribe chapters_detected on_chapters_detected ;;
  MockQThread.start env ;;
  Thread_join env ;;
  log_str <- gets (fun s => py_join newline (logs s)) ;;
  rc <- gets result_container ;;
  match rc with
  | None => raise (name_error "result_container")
  | Some c => ret (result_of log_str c)
  end.

(** The text returned by the outer [except] for the fault [e]. *)
Definition error_report (env : Env) (e : exn) : string :=
  ("Error: " ++ exn_str e ++ newline ++ format_exc env e)%string.

(** A closure of the invocation that was running belongs, from now on,
    to the earlier invocation number [n]. *)
Definition retire (n : nat) (cb : Closure) : Closure :=
  match owner cb with
  | Own => {| kind := kind cb; owner := Old n |}
  | Old _ => cb
  end.

(** Entering the function: its locals are unbound.  Those of the
    invocation before stay alive in the closures it connected, which
    stay connected. *)
Definition enter (s : State) : State :=
  {| logs := logs s;
     stdout := stdout s;
     signals := fun ch =>
       MockSignal.Build
         (map (retire (List.length (earlier s)))
              (MockSignal.callbacks (signals s ch)));
     earlier := earlier s ++ [{| frame_thread := thread s;
                                 frame_container := result_container s |}];
     thread := None;
     result_container := None |}.

Definition run_conversion (env : Env) (inp : Inputs) : M State (string * PyVal) :=
  modify enter ;;
  modify (set_logs []) ;;
  match determine_input inp with
  | None => ret ("Error: Please provide text or a file.", PNone)
  | Some (file_name, direct) =>
      modify (fun s => set_logs (logs s ++ ["Loading Kokoro pipeline..."]) s) ;;
      try_or_return
        (outside (load_numpy_kpipeline env))
        (fun e => (("Error loading pipeline: " ++ exn_str e)%string, PNone))
        (fun '(np, kp) =>
           let output_folder := os_path_join (getcwd env) "output" in
           outside_unit (makedirs env output_folder) ;;
           try_except
             (convert env inp file_name direct np kp output_folder)
             (fun e => ret (error_report env e, PNone)))
  end.

(** ** Vocabulary of the specification *)

(** A text payload that is empty or whitespace-only. *)
Fixpoint blank (s : string) : bool :=
  match s with
  | EmptyString => true
  | String c rest => is_space c && blank rest
  end.

Definition file_given (inp : Inputs) : bool :=
  match file_input inp with Some _ => true | None => false end.

Definition text_given (inp : Inputs) : bool := negb (blank (text_input inp)).


Definition worker_constructed (s : State) : bool :=
  match thread s with Some _ => true | None => false end.

Definition worker_started (s : State) : bool :=
  match thread s with Some t => started t | None => false end.

(** The four [connect] calls of the handler, in their order. *)
Definition subscribe_all (sigs : Channel -> MockSignal.t Closure)
  : Channel -> MockSignal.t Closure :=
  connect_on chapters_detected {| kind := on_chapters_detected; owner := Own |}
    (connect_on progress_updated {| kind := on_progress; owner := Own |}
       (connect_on log_updated {| kind := on_log; owner := Own |}
          (connect_on conversion_finished {| kind := on_finished; owner := Own |}
             sigs))).

(** The thread object as the handler starts it, when it gets that far. *)
Definition started_job (env : Env) (inp : Inputs) : option ConversionThread :=
  match determine_input inp with
  | None => None
  | Some (file_name, direct) =>
      match load_numpy_kpipeline env with
      | inl _ => None
      | inr (np, kp) =>
          let output_folder := os_path_join (getcwd env) "output" in
          match makedirs env output_folder, py_float env (speed inp) with
          | None, inr sp =>
              let a := job_args env inp file_name direct sp np kp output_folder in
              match init_fault env a, start_fault env with
              | None, None =>
                  Some (mark_started
                          (set_attributes direct (subtitle_format inp)
                             (new_thread a)))
              | _, _ => None
              end
          | _, _ => None
          end
      end
  end.

(** The line a log notification adds, if its subscriber accepts it. *)
Definition logged_line (env : Env) (payload : list PyVal) : option string :=
  match payload with
  | [PTuple []] => None
  | [PTuple (m :: _)] => Some (py_str (py_repr env) m)
  | [msg] => Some (py_str (py_repr env) msg)
  | _ => None
  end.

(** What [log_callback] logs of a message: the first item of a tuple,
    else the message itself. *)
Definition logged_part (msg : PyVal) : PyVal :=
  match msg with
  | PTuple (m :: _) => m
  | _ => msg
  end.

(** The number of [on_log] closures among these subscribers. *)
Definition loggers (subs : list Closure) : nat :=
  List.length
    (filter (fun cb => match kind cb with on_log => true | _ => false end) subs).

(** The lines one notification adds when [n] [on_log] closures are
    subscribed to its signal: its line, once for each. *)
Definition lines_by (env : Env) (n : nat) (payload : list PyVal) : list string :=
  match logged_line env payload with
  | Some line => repeat line n
  | None => []
  end.

(** The log lines of a run, in the order the engine published them,
    with [n ch] [on_log] closures subscribed to the signal [ch]. *)
Fixpoint lines_logged (env : Env) (n : Channel -> nat) (steps : list EngineStep)
  : list string :=
  match steps with
  | [] => []
  | Emit ch payload :: rest => lines_by env (n ch) payload ++ lines_logged env n rest
  | WaitChapterOptions :: rest => lines_logged env n rest
  end.

(** The log history of a job: the handler's own first line, then the
    engine's. *)
Definition history (env : Env) (n : Channel -> nat) (steps : list EngineStep)
  : list string :=
  "Loading Kokoro pipeline..." :: lines_logged env n steps.

(** The [on_log] closures of the job alone: one, on [log_updated]. *)
Definition once (ch : Channel) : nat :=
  match ch with
  | log_updated => 1
  | _ => 0
  end.

(** The [on_log] closures subscribed while a job called in the state
    [s] runs: those already there, and its own. *)
Definition listeners (s : State) (ch : Channel) : nat :=
  loggers (MockSignal.callbacks (signals s ch)) + once ch.

(** No [on_log] closure of an earlier job is subscribed. *)
Definition no_log_subscriber (s : State) : Prop :=
  forall ch, loggers (MockSignal.callbacks (signals s ch)) = 0.

(** The output path of the last job-finished notification of a run
    ([p0] before any). *)
Fixpoint path_reported (p0 : PyVal) (steps : list EngineStep) : PyVal :=
  match steps with
  | [] => p0
  | Emit conversion_finished [_; p] :: rest => path_reported p rest
  | _ :: rest => path_reported p0 rest
  end.

(** The job-finished notification is never published. *)
Fixpoint never_finished (steps : list EngineStep) : bool :=
  match steps with
  | [] => true
  | Emit conversion_finished _ :: _ => false
  | _ :: rest => never_finished rest
  end.

(** The engine's protocol at the chapter decision: it waits only after
    having published the chapters-detected notification with the
    chapter count ([asked]: it has). *)
Fixpoint asks_before_waiting (asked : bool) (steps : list EngineStep) : bool :=
  match steps with
  | [] => true
  | Emit chapters_detected [_] :: rest => asks_before_waiting true rest
  | WaitChapterOptions :: rest => asked && asks_before_waiting asked rest
  | _ :: rest => asks_before_waiting asked rest
  end.

Definition with_text (text : string) (inp : Inputs) : Inputs :=
  {| text_input := text;
     file_input := file_input inp;
     language_str := language_str inp;
     voice := voice inp;
     speed := speed inp;
     output_format := output_format inp;
     subtitle_mode := subtitle_mode inp;
     subtitle_format := subtitle_format inp;
     split_pattern := split_pattern inp |}.

Definition with_file (f : option UploadedFile) (inp : Inputs) : Inputs :=
  {| text_input := text_input inp;
     file_input := f;
     language_str := language_str inp;
     voice := voice inp;
     speed := speed inp;
     output_format := output_format inp;
     subtitle_mode := subtitle_mode inp;
     subtitle_format := subtitle_format inp;
     split_pattern := split_pattern inp |}.

(** The same engine, whose [run] returns instead of ending in a fault. *)
Definition without_final_fault (env : Env) : Env :=
  {| load_numpy_kpipeline := load_numpy_kpipeline env;
     getcwd := getcwd env;
     makedirs := makedirs env;
     time_time := time_time env;
     py_float := py_float env;
     init_fault := init_fault env;
     start_fault := start_fault env;
     engine_run := fun t => (fst (engine_run env t), None);
     progress := progress env;
     arity_error := arity_error env;
     py_repr := py_repr env;
     format_exc := format_exc env |}.

(** ** The worker's effect, notification by notification *)

(** The subscriber the handler connects to each signal. *)
Definition handler_of (ch : Channel) : Callback :=
  match ch with
  | conversion_finished => on_finished
  | log_updated => on_log
  | progress_updated => on_progress
  | chapters_detected => on_chapters_detected
  end.

(** Each signal has, after the subscribers earlier jobs left, the
    closure of the running invocation, and no other of its closures. *)
Definition subscribed (s : State) : Prop :=
  forall ch,
    exists stale,
      MockSignal.callbacks (signals s ch)
      = stale ++ [{| kind := handler_of ch; owner := Own |}] /\
      Forall (fun cb => owner cb <> Own) stale.

(** During the job: [thread] and [result_container] are bound to [t]
    and [c], and the signals carry the handler's subscribers. *)
Definition running (s : State) (t : ConversionThread) (c : Container) : Prop :=
  thread s = Some t /\ result_container s = Some c /\ subscribed s.

Definition thread_after (ch : Channel) (payload : list PyVal)
  (t : ConversionThread) : ConversionThread :=
  match ch, payload with
  | chapters_detected, [_] => accept_defaults t
  | _, _ => t
  end.

Definition container_after (ch : Channel) (payload : list PyVal)
  (c : Container) : Container :=
  match ch, payload with
  | conversion_finished, [st; p] => {| status := st; path := p |}
  | _, _ => c
  end.

(** The accumulator after one closure of kind [k] was called. *)
Definition logs_by (env : Env) (k : Callback) (payload : list PyVal)
  (l : list string) : list string :=
  match k with
  | on_log =>
      match logged_line env payload with
      | Some line => py_last 1000 (l ++ [line])
      | None => l
      end
  | _ => l
  end.

(** The thread object after the statements [steps] of the engine. *)
Fixpoint thread_after_steps (steps : list EngineStep) (t : ConversionThread)
  : ConversionThread :=
  match steps with
  | [] => t
  | Emit ch payload :: rest => thread_after_steps rest (thread_after ch payload t)
  | WaitChapterOptions :: rest => thread_after_steps rest t
  end.

(** The fault raised on the handler's own thread inside the second
    [try], if any: by [float(speed)], by the constructor or by
    [thread.start()]. *)
Definition handler_fault (env : Env) (inp : Inputs) : option exn :=
  match determine_input inp, load_numpy_kpipeline env with
  | Some (file_name, direct), inr (np, kp) =>
      match py_float env (speed inp) with
      | inl e => Some e
      | inr sp =>
          match init_fault env
                  (job_args env inp file_name direct sp np kp
                     (os_path_join (getcwd env) "output")) with
          | Some e => Some e
          | None => start_fault env
          end
      end
  | _, _ => None
  end.

(** The state in which the worker of a job that starts [t0] runs. *)
Definition job_state (s : State) (t0 : ConversionThread) : State :=
  {| logs := ["Loading Kokoro pipeline..."];
     stdout := stdout s;
     signals := subscribe_all (signals (enter s));
     earlier := earlier (enter s);
     thread := Some t0;
     result_container := Some {| status := PNone; path := PNone |} |}.

(** ** Sample runs *)

Module Sample.

Definition env (loaded : exn + (PyVal * PyVal))
  (script : list EngineStep * option exn) : Env :=
  {| load_numpy_kpipeline := loaded;
     getcwd := "/app";
     makedirs := fun _ => None;
     time_time := PObj "1700000000.0" true;
     py_float := fun v => inr v;
     init_fault := fun _ => None;
     start_fault := None;
     engine_run := fun _ => script;
     progress := fun _ _ => None;
     arity_error := fun f _ => Exn "TypeError" (f ++ "() argument mismatch")%string;
     py_repr := fun _ => "(...)";
     format_exc := fun e =>
       ("Traceback (most recent call last): " ++ exn_class e)%string |}.

Definition pipeline : exn + (PyVal * PyVal) :=
  inr (PObj "<module 'numpy'>" true, PObj "<class 'KPipeline'>" true).

Definition form (text : string) (f : option UploadedFile) : Inputs :=
  {| text_input := text;
     file_input := f;
     language_str := "a - American English";
     voice := "af_heart";
     speed := PObj "1.0" true;
     output_format := "mp3";
     subtitle_mode := "Disabled";
     subtitle_format := "srt";
     split_pattern := "\n+" |}.

Definition idle : State :=
  {| logs := ["left over"]; stdout := [];
     signals := fun _ => MockSignal.init; earlier := [];
     thread := None; result_container := None |}.

Definition book : list EngineStep :=
  [ Emit log_updated [PStr "Reading"];
    Emit chapters_detected [PInt 3];
    WaitChapterOptions;
    Emit progress_updated [PInt 50; PStr "00:10"];
    Emit log_updated [PTuple [PStr "Done"; PStr "green"]];
    Emit conversion_finished [PStr "ok"; PStr "/app/output/book.mp3"] ].

Definition boom : exn := Exn "RuntimeError" "CUDA out of memory".

(** The thread object the handler starts for the text [Hello]. *)
Definition hello_thread (e : Env) : ConversionThread :=
  mark_started
    (set_attributes true "srt"
       (new_thread
          (job_args e (form "Hello" None) "Hello" true (PObj "1.0" true)
             (PObj "<module 'numpy'>" true) (PObj "<class 'KPipeline'>" true)
             "/app/output"))).

(** A run that logs the numbers below [n], then reports a path. *)
Definition numbered (n : nat) : list EngineStep :=
  map (fun i => Emit log_updated [PInt (Z.of_nat i)]) (seq 0 n)
  ++ [Emit conversion_finished [PStr "ok"; PStr "/app/output/book.mp3"]].

(** The state a first job leaves, in which a second one is called. *)
Definition after_first_job : State :=
  snd (run_conversion (env pipeline (book, None)) (form "Hello" None) idle).

End Sample.

(** ** The rest of the file *)

(** [get_language_choices()], for the items of [LANGUAGE_DESCRIPTIONS]
    in their order. *)
Definition get_language_choices (LANGUAGE_DESCRIPTIONS : list (string * string))
  : list string :=
  map (fun item => (fst item ++ " - " ++ snd item)%string) LANGUAGE_DESCRIPTIONS.

(** [get_voice_choices()], for the list [VOICES_INTERNAL]. *)
Definition get_voice_choices (VOICES_INTERNAL : list string) : list string :=
  VOICES_INTERNAL.

(** [progress_callback(percent, etr)]: [pass] *)
Definition progress_callback (percent etr : PyVal) : M State unit := ret tt.

(** The character [c] occurs in [s]. *)
Fixpoint has_char (c : ascii) (s : string) : bool :=
  match s with
  | EmptyString => false
  | String d rest => Ascii.eqb c d || has_char c rest
  end.

(** [log_callback] called on each message in turn, a call that raises
    being abandoned (as [emit] does for [on_log]). *)
Definition log_all (env : Env) (msgs : list PyVal) (s : State) : State :=
  fold_left (fun acc msg => snd (log_callback env msg acc)) msgs s.

(** The lines these messages add. *)
Definition lines_of (env : Env) (msgs : list PyVal) : list string :=
  flat_map (fun msg => match logged_line env [msg] with
                       | Some line => [line]
                       | None => []
                       end) msgs.

(** The file reference returned for the path recorded: the path
    itself, or [None] when it is [None], the empty string or another
    value that counts as false. *)
Definition file_returned (p : PyVal) : PyVal :=
  match p with
  | PNone => PNone
  | PInt z => if Z.eqb z 0 then PNone else p
  | PStr EmptyString => PNone
  | PStr (String _ _) => p
  | PTuple [] => PNone
  | PTuple (_ :: _) => p
  | PObj _ truth => if truth then p else PNone
  end.

(** What the handler returns for a run of the engine that comes to its
    end, with [n ch] [on_log] closures subscribed to the signal [ch]:
    the last 1000 lines of the log history, joined, and the file for
    the last path reported. *)
Definition outcome_of (env : Env) (n : Channel -> nat) (steps : list EngineStep)
  : string * PyVal :=
  (py_join newline (py_last 1000 (history env n steps)),
   file_returned (path_reported PNone steps)).

(** The number of positional parameters of each closure, and its name. *)
Definition arity_of (cb : Callback) : nat :=
  match cb with
  | on_finished => 2
  | on_log => 1
  | on_progress => 2
  | on_chapters_detected => 1
  end.

Definition callback_name (cb : Callback) : string :=
  match cb with
  | on_finished => "on_finished"
  | on_log => "on_log"
  | on_progress => "on_progress"
  | on_chapters_detected => "on_chapters_detected"
  end.

(** The line printed for each of these subscribers when it is called
    with arguments it cannot take. *)
Definition arity_reports (env : Env) (subs : list Closure) (payload : list PyVal)
  : list string :=
  map (fun cb =>
         MockSignal.report (arity_error env (callback_name (kind cb)) payload))
      subs.

(** [print] of each of these lines, in order. *)
Definition print_all (lines : list string) (s : State) : State :=
  fold_left (fun acc line => print line acc) lines s.

(** The same outside world, with another behaviour of [progress]. *)
Definition with_progress (p : PyVal -> string -> option exn) (env : Env) : Env :=
  {| load_numpy_kpipeline := load_numpy_kpipeline env;
     getcwd := getcwd env;
     makedirs := makedirs env;
     time_time := time_time env;
     py_float := py_float env;
     init_fault := init_fault env;
     start_fault := start_fault env;
     engine_run := engine_run env;
     progress := p;
     arity_error := arity_error env;
     py_repr := py_repr env;
     format_exc := format_exc env |}.

(** The same outside world, in which [os.makedirs] raises [e]. *)
Definition with_makedirs_fault (e : exn) (env : Env) : Env :=
  {| load_numpy_kpipeline := load_numpy_kpipeline env;
     getcwd := getcwd env;
     makedirs := fun _ => Some e;
     time_time := time_time env;
     py_float := py_float env;
     init_fault := init_fault env;
     start_fault := start_fault env;
     engine_run := engine_run env;
     progress := progress env;
     arity_error := arity_error env;
     py_repr := py_repr env;
     format_exc := format_exc env |}.

(** * Properties *)

(** Unfolds the handler down to the outcomes of the outside calls. *)
Ltac run_handler :=
  cbv beta iota zeta delta
    [run_conversion bind modify try_or_return outside outside_unit ret
     try_except convert on_thread subscribe MockQThread.start Thread_start
     enter set_thread set_container set_signals set_logs gets raise
     thread logs stdout signals earlier result_container].

(** ** Lists and strings *)

Lemma py_last_short {A : Type} (n : nat) (l : list A) :
  List.length l <= n -> py_last n l = l.
Proof.
  intros Hlen. unfold py_last.
  replace (List.length l - n) with 0 by lia. reflexivity.
Qed.

Lemma py_last_length {A : Type} (n : nat) (l : list A) :
  List.length (py_last n l) = Nat.min n (List.length l).
Proof.
  unfold py_last. rewrite length_skipn. lia.
Qed.

(** Evicting early or late leaves the same entries. *)
Lemma py_last_app_absorb {A : Type} (n : nat) (a b : list A) :
  py_last n (py_last n a ++ b) = py_last n (a ++ b).
Proof.
  destruct (Nat.le_gt_cases (List.length a) n) as [Hle | Hgt].
  - rewrite (py_last_short n a Hle). reflexivity.
  - unfold py_last at 1 3.
    rewrite !length_app, py_last_length.
    replace (Nat.min n (List.length a)) with n by lia.
    unfold py_last.
    set (k := List.length a - n).
    replace (List.length a + List.length b - n) with (List.length b + k) by lia.
    rewrite <- skipn_skipn.
    rewrite (skipn_app k a b).
    replace (k - List.length a) with 0 by lia.
    replace (n + List.length b - n) with (List.length b) by lia.
    reflexivity.
Qed.

Lemma connect_all_callbacks {Cb : Type} (regs : list Cb) (sg : MockSignal.t Cb) :
  MockSignal.callbacks (fold_left MockSignal.connect regs sg)
  = MockSignal.callbacks sg ++ regs.
Proof.
  revert sg. induction regs as [| cb regs IH]; intros sg; simpl.
  - now rewrite app_nil_r.
  - rewrite IH. simpl. now rewrite <- app_assoc.
Qed.

(** ** MockSignal.emit *)

Section EmitFacts.
Context {St Cb : Type}.
Variable call : Cb -> list PyVal -> St -> option exn * St.
Variable print : string -> St -> St.

(** The loop returns normally, whatever the subscribers raise, and
    leaves the state of the deliveries made one after the other. *)
Lemma for_each_total (cbs : list Cb) (args : list PyVal) (s : St) :
  MockSignal.for_each call print cbs args s
  = (Normal tt, fold_left (MockSignal.after_delivery call print args) cbs s).
Proof.
  revert s. induction cbs as [| cb rest IH]; intros s; simpl.
  - reflexivity.
  - unfold bind, MockSignal.deliver, try_except, MockSignal.invoke, modify.
    unfold MockSignal.after_delivery at 2.
    destruct (call cb args s) as [[e |] s']; simpl; apply IH.
Qed.

Lemma for_each_probed (cbs : list Cb) (args : list PyVal)
      (p p' : MockSignal.Probed (St := St) (Cb := Cb)) (out : Res unit) :
  MockSignal.for_each (MockSignal.probe_call call)
    (MockSignal.probe_print print) cbs args p = (out, p') ->
  out = Normal tt /\
  (exists fresh,
      MockSignal.calls p' = MockSignal.calls p ++ fresh /\
      map (fun c => (MockSignal.callee c, MockSignal.passed c)) fresh
      = map (fun cb => (cb, args)) cbs /\
      MockSignal.printed p'
      = MockSignal.printed p ++ MockSignal.reports_of fresh) /\
  MockSignal.for_each call print cbs args (MockSignal.inner p)
  = (Normal tt, MockSignal.inner p').
Proof.
  revert p. induction cbs as [| cb rest IH]; intros p Hrun; simpl in Hrun.
  - unfold ret in Hrun. inversion Hrun; subst.
    split; [reflexivity | split; [| reflexivity]].
    exists []. simpl. now rewrite !app_nil_r.
  - unfold bind, MockSignal.deliver, try_except, MockSignal.invoke, modify,
      MockSignal.probe_call in Hrun.
    simpl.
    unfold bind, MockSignal.deliver, try_except, MockSignal.invoke, modify.
    destruct (call cb args (MockSignal.inner p)) as [[e |] s'] eqn:Hcall;
      apply IH in Hrun; simpl in Hrun;
      destruct Hrun as (Hn & (fresh & Hc & Hm & Hp) & Hplain);
      (split; [exact Hn | split; [| exact Hplain]]).
    + exists (MockSignal.MkCall cb args (Some e) :: fresh).
      rewrite Hc, Hp. simpl. rewrite Hm, <- !app_assoc. simpl. auto.
    + exists (MockSignal.MkCall cb args None :: fresh).
      rewrite Hc, Hp. simpl. rewrite Hm, <- !app_assoc. simpl. auto.
Qed.
End EmitFacts.

(** C1. Whatever subscribers are registered with [connect] on a fresh
    signal, and whatever they raise, [emit] returns normally after having
    called each registered subscriber once, in the order of
    registration, with the arguments of [emit]; every fault raised by a
    subscriber is printed as a report and the subscribers after it are
    still called.  The journal is that of a probe placed around the
    subscribers, which changes nothing to what [emit] does. *)
Theorem emit_calls_each_subscriber_once_in_order :
  forall (St Cb : Type) (call : Cb -> list PyVal -> St -> option exn * St)
         (print : string -> St -> St)
         (regs : list Cb) (args : list PyVal) (s : St),
    let sg := fold_left MockSignal.connect regs MockSignal.init in
    let r := MockSignal.emit (MockSignal.probe_call call)
               (MockSignal.probe_print print) sg args
               (MockSignal.MkProbed s [] []) in
    fst r = Normal tt /\
    map (fun c => (MockSignal.callee c, MockSignal.passed c))
        (MockSignal.calls (snd r))
    = map (fun cb => (cb, args)) regs /\
    MockSignal.printed (snd r) = MockSignal.reports_of (MockSignal.calls (snd r)) /\
    MockSignal.emit call print sg args s = (Normal tt, MockSignal.inner (snd r)).
Proof.
  intros St Cb call0 print0 regs payload s sg r.
  assert (Hsg : MockSignal.callbacks sg = regs).
  { unfold sg. now rewrite connect_all_callbacks. }
  unfold r, MockSignal.emit. rewrite Hsg. clear r.
  destruct (MockSignal.for_each (MockSignal.probe_call call0)
              (MockSignal.probe_print print0) regs payload
              (MockSignal.MkProbed s [] [])) as [out p'] eqn:Hrun.
  apply for_each_probed in Hrun.
  destruct Hrun as (Hn & (fresh & Hc & Hm & Hp) & Hplain).
  simpl in Hc, Hp, Hplain. simpl.
  repeat split.
  - exact Hn.
  - rewrite Hc. exact Hm.
  - rewrite Hp, Hc. reflexivity.
  - exact Hplain.
Qed.

(** ** The subscribers *)

Lemma log_callback_spec (env : Env) (msg : PyVal) (s : State) :
  log_callback env msg s
  = match logged_line env [msg] with
    | Some line => (None, set_logs (py_last 1000 (logs s ++ [line])) s)
    | None => (Some index_error, s)
    end.
Proof.
  unfold log_callback, logged_line.
  assert (Hcap : forall line,
             (if (1000 <? List.length (logs s ++ [line]))%nat
              then (@None exn, set_logs (py_last 1000 (logs s ++ [line])) s)
              else (None, set_logs (logs s ++ [line]) s))
             = (None, set_logs (py_last 1000 (logs s ++ [line])) s)).
  { intros line. destruct (Nat.ltb_spec 1000 (List.length (logs s ++ [line]))).
    - reflexivity.
    - now rewrite py_last_short by lia. }
  destruct msg as [| z | str | [| m items] | shown truth]; try apply Hcap.
  reflexivity.
Qed.

Lemma capped_appends (lines : list string) :
  forall l : list string,
    List.length l <= 1000 ->
    fold_left (fun l line => py_last 1000 (l ++ [line])) lines l
    = py_last 1000 (l ++ lines).
Proof.
  induction lines as [| line rest IH]; intros l Hl; simpl.
  - rewrite app_nil_r. symmetry. now apply py_last_short.
  - rewrite IH by (rewrite py_last_length; lia).
    rewrite py_last_app_absorb, <- app_assoc. reflexivity.
Qed.


(** A closure of an earlier invocation leaves the locals of the running
    one, and the signals, as they are. *)
Lemma delivery_stale (env : Env) (cb : Closure) (payload : list PyVal)
      (s : State) :
  owner cb <> Own ->
  let s' := MockSignal.after_delivery (call env) print payload s cb in
  thread s' = thread s /\
  result_container s' = result_container s /\
  signals s' = signals s /\
  logs s' = logs_by env (kind cb) payload (logs s).
Proof.
  intros Hstale. unfold MockSignal.after_delivery, call, logs_by.
  destruct cb as [k [| n]]; [now elim Hstale |].
  cbn [kind owner captured update_captured].
  destruct k.
  - destruct payload as [| st [| p [| x rest]]]; simpl; auto.
    destruct (nth_error (earlier s) n) as [[t [c |]] |]; simpl; auto.
  - destruct payload as [| msg [| x rest]]; try (simpl; now auto).
    + rewrite log_callback_spec.
      destruct (logged_line env [msg]) as [line |]; simpl; auto.
    + destruct msg as [| z | str | [| m items] | shown truth]; simpl; auto.
  - destruct payload as [| p [| etr [| x rest]]]; simpl; auto.
    destruct (progress env p _); simpl; auto.
  - destruct payload as [| count [| x rest]]; simpl; auto.
    destruct (nth_error (earlier s) n) as [[[t |] c] |]; simpl; auto.
Qed.

(** The closure of the running invocation on the signal [ch]. *)
Lemma delivery_own (env : Env) (ch : Channel) (payload : list PyVal)
      (s : State) (t : ConversionThread) (c : Container) :
  thread s = Some t -> result_container s = Some c ->
  let s' := MockSignal.after_delivery (call env) print payload s
              {| kind := handler_of ch; owner := Own |} in
  thread s' = Some (thread_after ch payload t) /\
  result_container s' = Some (container_after ch payload c) /\
  signals s' = signals s /\
  logs s' = logs_by env (handler_of ch) payload (logs s).
Proof.
  intros Ht Hc. unfold MockSignal.after_delivery, call, logs_by.
  cbn [kind owner captured update_captured].
  destruct ch; cbn [handler_of thread_after container_after].
  - destruct payload as [| st [| p [| x rest]]]; simpl;
      try (now rewrite Ht, Hc); try (rewrite Hc; simpl; now rewrite Ht).
  - destruct payload as [| msg [| x rest]]; try (simpl; now rewrite Ht, Hc).
    + rewrite log_callback_spec.
      destruct (logged_line env [msg]) as [line |]; simpl; now rewrite Ht, Hc.
    + destruct msg as [| z | str | [| m items] | shown truth];
        simpl; now rewrite Ht, Hc.
  - destruct payload as [| p [| etr [| x rest]]]; simpl; try (now rewrite Ht, Hc).
    destruct (progress env p _); simpl; now rewrite Ht, Hc.
  - destruct payload as [| count [| x rest]]; simpl;
      try (now rewrite Ht, Hc); try (rewrite Ht; simpl; now rewrite Hc).
Qed.

Lemma deliveries_stale (env : Env) (payload : list PyVal) (stale : list Closure) :
  Forall (fun cb => owner cb <> Own) stale ->
  forall s : State,
    let s' := fold_left (MockSignal.after_delivery (call env) print payload)
                stale s in
    thread s' = thread s /\
    result_container s' = result_container s /\
    signals s' = signals s /\
    logs s' = fold_left (fun l cb => logs_by env (kind cb) payload l) stale (logs s).
Proof.
  induction 1 as [| cb rest Hcb Hrest IH]; intros s; cbn [fold_left].
  - cbv zeta. auto.
  - destruct (delivery_stale env cb payload s Hcb) as (Ht & Hc & Hs & Hl).
    destruct (IH (MockSignal.after_delivery (call env) print payload s cb))
      as (Ht' & Hc' & Hs' & Hl').
    cbv zeta. rewrite Ht', Hc', Hs', Hl', Ht, Hc, Hs, Hl. auto.
Qed.

Lemma loggers_app (a b : list Closure) : loggers (a ++ b) = loggers a + loggers b.
Proof.
  unfold loggers. now rewrite filter_app, length_app.
Qed.

Lemma loggers_own (ch : Channel) :
  loggers [{| kind := handler_of ch; owner := Own |}] = once ch.
Proof.
  destruct ch; reflexivity.
Qed.

(** Every [on_log] closure called adds the line once more. *)
Lemma logs_by_fold (env : Env) (payload : list PyVal) (subs : list Closure) :
  forall l : list string,
    List.length l <= 1000 ->
    fold_left (fun l cb => logs_by env (kind cb) payload l) subs l
    = py_last 1000 (l ++ lines_by env (loggers subs) payload).
Proof.
  unfold lines_by, logs_by.
  destruct (logged_line env payload) as [line |].
  - induction subs as [| cb rest IH]; intros l Hl; cbn [fold_left].
    + simpl. rewrite app_nil_r. symmetry. now apply py_last_short.
    + change (cb :: rest) with ([cb] ++ rest). rewrite loggers_app.
      unfold loggers at 1. cbn [filter].
      destruct (kind cb); cbn [List.length Nat.add]; try (now apply IH).
      rewrite IH by (rewrite py_last_length; lia).
      rewrite py_last_app_absorb, <- app_assoc. reflexivity.
  - induction subs as [| cb rest IH]; intros l Hl; cbn [fold_left].
    + rewrite app_nil_r. symmetry. now apply py_last_short.
    + destruct (kind cb); now apply IH.
Qed.

(** ** The worker *)

(** A notification published while the job runs: [emit] returns; the
    closure of the job has had its effect on the job's thread object and
    container; every [on_log] closure subscribed has been called. *)
Lemma engine_step_emit_any (env : Env) (ch : Channel) (payload : list PyVal)
      (s : State) (t : ConversionThread) (c : Container) :
  running s t c ->
  exists s',
    engine_step env (Emit ch payload) s = (Normal tt, s') /\
    running s' (thread_after ch payload t) (container_after ch payload c) /\
    signals s' = signals s /\
    logs s'
    = fold_left (fun l cb => logs_by env (kind cb) payload l)
        (MockSignal.callbacks (signals s ch)) (logs s).
Proof.
  intros (Ht & Hc & Hsub).
  unfold engine_step. rewrite Ht. unfold MockSignal.emit.
  destruct (Hsub ch) as (stale & Hsubs & Hstale).
  rewrite for_each_total, Hsubs, !fold_left_app. cbn [fold_left].
  destruct (deliveries_stale env payload stale Hstale s) as (Ht1 & Hc1 & Hs1 & Hl1).
  set (s1 := fold_left (MockSignal.after_delivery (call env) print payload) stale s)
    in *.
  rewrite Ht in Ht1. rewrite Hc in Hc1.
  destruct (delivery_own env ch payload s1 t c Ht1 Hc1) as (Ht2 & Hc2 & Hs2 & Hl2).
  eexists. split; [reflexivity |].
  assert (Hsig : signals
                   (MockSignal.after_delivery (call env) print payload s1
                      {| kind := handler_of ch; owner := Own |}) = signals s)
    by (now rewrite Hs2).
  split; [| split; [exact Hsig |]].
  - split; [exact Ht2 | split; [exact Hc2 |]].
    intros ch'. rewrite Hsig. apply Hsub.
  - rewrite Hl2, Hl1. reflexivity.
Qed.

(** The same, with the lines the notification added. *)
Lemma engine_step_emit (env : Env) (ch : Channel) (payload : list PyVal)
      (s : State) (t : ConversionThread) (c : Container) :
  running s t c ->
  List.length (logs s) <= 1000 ->
  exists s',
    engine_step env (Emit ch payload) s = (Normal tt, s') /\
    running s' (thread_after ch payload t) (container_after ch payload c) /\
    signals s' = signals s /\
    logs s'
    = py_last 1000
        (logs s
         ++ lines_by env (loggers (MockSignal.callbacks (signals s ch))) payload).
Proof.
  intros Hrun Hlen.
  destruct (engine_step_emit_any env ch payload s t c Hrun)
    as (s' & Hstep & Hrun' & Hsig & Hlogs).
  exists s'. rewrite Hlogs, logs_by_fold by exact Hlen. auto.
Qed.

Lemma thread_after_keeps (ch : Channel) (payload : list PyVal)
      (t : ConversionThread) :
  let t' := thread_after ch payload t in
  args t' = args t /\
  is_direct_text t' = is_direct_text t /\
  thread_subtitle_format t' = thread_subtitle_format t /\
  replace_single_newlines t' = replace_single_newlines t /\
  started t' = started t.
Proof.
  unfold thread_after. destruct ch; cbv zeta; auto.
  destruct payload as [| x0 [| x1 more]]; auto.
Qed.

(** The statements of the engine, run while the job is set up: they
    never raise; when they come to their end, the container holds the
    last path reported and the accumulator the last 1000 lines. *)
Lemma run_steps_spec (env : Env) (steps : list EngineStep) :
  forall (s s' : State) (t : ConversionThread) (c : Container) (out : Res unit),
    running s t c ->
    List.length (logs s) <= 1000 ->
    run_steps env steps s = (out, s') ->
    (out = Hang \/
     out = Normal tt /\
     exists c',
       running s' (thread_after_steps steps t) c' /\
       path c' = path_reported (path c) steps /\
       (never_finished steps = true -> c' = c) /\
       signals s' = signals s /\
       logs s'
       = py_last 1000
           (logs s
            ++ lines_logged env
                 (fun ch => loggers (MockSignal.callbacks (signals s ch))) steps)) /\
    (asks_before_waiting (chapter_options_event t) steps = true -> out = Normal tt).
Proof.
  induction steps as [| st rest IH]; intros s s' t c out Hrun Hlen Heq.
  - simpl in Heq. unfold ret in Heq. inversion Heq; subst.
    split; [right | reflexivity].
    split; [reflexivity |]. exists c. simpl.
    rewrite app_nil_r, py_last_short by exact Hlen. auto.
  - simpl in Heq. unfold bind in Heq.
    destruct st as [ch payload |].
    + destruct (engine_step_emit env ch payload s t c Hrun Hlen)
        as (s1 & Hstep & Hrun1 & Hsig1 & Hlogs1).
      rewrite Hstep in Heq.
      assert (Hlen1 : List.length (logs s1) <= 1000).
      { rewrite Hlogs1, py_last_length. lia. }
      destruct (IH s1 s' _ _ out Hrun1 Hlen1 Heq) as (Hres & Hask).
      split.
      * destruct Hres as [Hhang | (Hn & c' & Hr' & Hp' & Hnf' & Hs' & Hl')];
          [now left | right].
        split; [exact Hn |]. exists c'.
        split; [exact Hr' | split; [| split; [| split]]].
        -- rewrite Hp'. unfold container_after.
           destruct ch; try reflexivity.
           destruct payload as [| x0 [| x1 [| x2 more]]]; reflexivity.
        -- intros Hnever. cbn [never_finished] in Hnever.
           destruct ch; try discriminate; now apply Hnf'.
        -- now rewrite Hs'.
        -- rewrite Hl', Hlogs1, Hsig1. cbn [lines_logged].
           rewrite py_last_app_absorb, <- app_assoc. reflexivity.
      * intros Hproto. apply Hask. revert Hproto.
        unfold thread_after. simpl.
        destruct ch; try (intros H; exact H).
        destruct payload as [| x0 [| x1 more]]; intros H; exact H.
    + destruct Hrun as (Ht & Hc & Hsub).
      unfold engine_step in Heq. rewrite Ht in Heq. simpl.
      destruct (chapter_options_event t) eqn:Hev.
      * destruct (IH s s' t c out (conj Ht (conj Hc Hsub)) Hlen Heq) as (Hres & Hask).
        rewrite Hev in Hask. split; [exact Hres | exact Hask].
      * inversion Heq; subst. split; [now left | discriminate].
Qed.

(** However the run ends, the job's thread object keeps what the
    handler configured, the signals keep their subscribers and the
    accumulator at most 1000 lines. *)
Lemma run_steps_keeps (env : Env) (steps : list EngineStep) :
  forall (s : State) (t : ConversionThread) (c : Container),
    running s t c ->
    List.length (logs s) <= 1000 ->
    exists t' c',
      running (snd (run_steps env steps s)) t' c' /\
      args t' = args t /\
      is_direct_text t' = is_direct_text t /\
      started t' = started t /\
      signals (snd (run_steps env steps s)) = signals s /\
      List.length (logs (snd (run_steps env steps s))) <= 1000.
Proof.
  induction steps as [| st rest IH]; intros s t c Hrun Hlen; cbn [run_steps].
  - exists t, c. unfold ret. cbn [snd].
    split; [exact Hrun |]. repeat split; assumption || reflexivity.
  - unfold bind. destruct st as [ch payload |].
    + destruct (engine_step_emit env ch payload s t c Hrun Hlen)
        as (s1 & Hstep & Hrun1 & Hsig1 & Hlogs1).
      rewrite Hstep.
      assert (Hlen1 : List.length (logs s1) <= 1000).
      { rewrite Hlogs1, py_last_length. lia. }
      destruct (IH s1 _ _ Hrun1 Hlen1) as (t' & c' & Hr & Ha & Hd & Hst & Hs & Hl).
      destruct (thread_after_keeps ch payload t) as (Ha1 & Hd1 & _ & _ & Hst1).
      exists t', c'. rewrite Ha, Hd, Hst, Hs, Ha1, Hd1, Hst1, Hsig1.
      split; [exact Hr |]. repeat split; assumption || reflexivity.
    + destruct Hrun as (Ht & Hc & Hsub).
      unfold engine_step. rewrite Ht.
      destruct (chapter_options_event t).
      * apply (IH s t c); [split; [exact Ht | split; assumption] | exact Hlen].
      * exists t, c. cbn [snd].
        split; [split; [exact Ht | split; assumption] |].
        repeat split; assumption || reflexivity.
Qed.

(** An engine that waits for the chapter decision before having asked
    for it stays blocked. *)
Lemma run_steps_blocks (env : Env) (steps : list EngineStep) :
  forall (s : State) (t : ConversionThread) (c : Container),
    running s t c ->
    List.length (logs s) <= 1000 ->
    asks_before_waiting (chapter_options_event t) steps = false ->
    fst (run_steps env steps s) = Hang.
Proof.
  induction steps as [| st rest IH]; intros s t c Hrun Hlen Hproto; [discriminate |].
  cbn [run_steps]. unfold bind.
  destruct st as [ch payload |].
  - destruct (engine_step_emit env ch payload s t c Hrun Hlen)
      as (s1 & Hstep & Hrun1 & _ & Hlogs1).
    rewrite Hstep. apply (IH s1 _ _ Hrun1).
    + rewrite Hlogs1, py_last_length. lia.
    + revert Hproto. unfold thread_after. cbn [asks_before_waiting].
      destruct ch; try (intros H; exact H).
      destruct payload as [| x0 [| x1 more]]; intros H; exact H.
  - destruct Hrun as (Ht & Hc & Hsub).
    unfold engine_step. rewrite Ht.
    cbn [asks_before_waiting] in Hproto.
    destruct (chapter_options_event t) eqn:Hev; [| reflexivity].
    apply (IH s t c); [split; [exact Ht | split; assumption] | exact Hlen |].
    now rewrite Hev.
Qed.

(** ** run_conversion *)

(** Up to [thread.start()], a job that gets started only sets up the
    state in which its worker runs. *)
Lemma run_conversion_started (env : Env) (inp : Inputs) (s : State)
      (t0 : ConversionThread) :
  started_job env inp = Some t0 ->
  run_conversion env inp s
  = try_except
      (Thread_join env ;;
       log_str <- gets (fun s => py_join newline (logs s)) ;;
       rc <- gets result_container ;;
       match rc with
       | None => raise (name_error "result_container")
       | Some c => ret (result_of log_str c)
       end)
      (fun e => ret (error_report env e, PNone))
      (job_state s t0).
Proof.
  unfold started_job, job_state. intros Hjob.
  destruct (determine_input inp) as [[file_name direct] |] eqn:Hin; [| discriminate].
  destruct (load_numpy_kpipeline env) as [e | [np kp]] eqn:Hld; [discriminate |].
  cbv zeta in Hjob.
  destruct (makedirs env (os_path_join (getcwd env) "output")) eqn:Hmk;
    [discriminate |].
  destruct (py_float env (speed inp)) as [e | sp] eqn:Hfl; [discriminate |].
  destruct (init_fault env _) eqn:Hinit; [discriminate |].
  destruct (start_fault env) eqn:Hst; [discriminate |].
  inversion Hjob; subst t0; clear Hjob.
  unfold run_conversion. rewrite Hin. run_handler.
  rewrite Hld, Hmk, Hfl, Hinit, Hst.
  reflexivity.
Qed.

Lemma started_job_shape (env : Env) (inp : Inputs) (t0 : ConversionThread) :
  started_job env inp = Some t0 ->
  exists file_name direct sp np kp,
    determine_input inp = Some (file_name, direct) /\
    t0 = mark_started
           (set_attributes direct (subtitle_format inp)
              (new_thread
                 (job_args env inp file_name direct sp np kp
                    (os_path_join (getcwd env) "output")))).
Proof.
  unfold started_job. intros Hjob.
  destruct (determine_input inp) as [[file_name direct] |]; [| discriminate].
  destruct (load_numpy_kpipeline env) as [e | [np kp]]; [discriminate |].
  cbv zeta in Hjob.
  destruct (makedirs env _); [discriminate |].
  destruct (py_float env (speed inp)) as [e | sp]; [discriminate |].
  destruct (init_fault env _); [discriminate |].
  destruct (start_fault env); [discriminate |].
  inversion Hjob. exists file_name, direct, sp, np, kp. split; reflexivity.
Qed.

Lemma started_job_facts (env : Env) (inp : Inputs) (t0 : ConversionThread) :
  started_job env inp = Some t0 ->
  chapter_options_event t0 = false /\ started t0 = true /\
  exists file_name direct,
    determine_input inp = Some (file_name, direct) /\
    arg_file_name (args t0) = file_name /\
    is_direct_text t0 = Some direct /\
    arg_total_char_count (args t0)
    = (if direct then String.length (text_input inp) else 1000).
Proof.
  intros Hjob.
  destruct (started_job_shape env inp t0 Hjob)
    as (file_name & direct & sp & np & kp & Hin & Hshape).
  subst t0. split; [reflexivity | split; [reflexivity |]].
  exists file_name, direct. repeat split; assumption || reflexivity.
Qed.

Lemma retired_not_own (n : nat) (subs : list Closure) :
  Forall (fun cb => owner cb <> Own) (map (retire n) subs).
Proof.
  induction subs as [| [k [| m]] rest IH]; constructor; try exact IH;
    unfold retire; cbn [owner]; discriminate.
Qed.

Lemma loggers_retired (n : nat) (subs : list Closure) :
  loggers (map (retire n) subs) = loggers subs.
Proof.
  unfold loggers.
  induction subs as [| [k [| m]] rest IH]; [reflexivity | |];
    cbn [map filter retire owner kind]; destruct k; cbn [List.length];
    now rewrite IH.
Qed.

(** The signals while the job runs: what earlier jobs left, then the
    closure of the job. *)
Lemma job_state_signals (s : State) (t0 : ConversionThread) (ch : Channel) :
  MockSignal.callbacks (signals (job_state s t0) ch)
  = map (retire (List.length (earlier s))) (MockSignal.callbacks (signals s ch))
    ++ [{| kind := handler_of ch; owner := Own |}].
Proof.
  destruct ch; reflexivity.
Qed.

Lemma job_state_running (s : State) (t0 : ConversionThread) :
  running (job_state s t0) t0 {| status := PNone; path := PNone |}.
Proof.
  split; [reflexivity | split; [reflexivity |]].
  intros ch. eexists. split; [apply job_state_signals |].
  apply retired_not_own.
Qed.

Lemma job_state_listeners (s : State) (t0 : ConversionThread) (ch : Channel) :
  loggers (MockSignal.callbacks (signals (job_state s t0) ch)) = listeners s ch.
Proof.
  rewrite job_state_signals, loggers_app, loggers_retired, loggers_own.
  reflexivity.
Qed.

Lemma lines_logged_ext (env : Env) (n m : Channel -> nat) (steps : list EngineStep) :
  (forall ch, n ch = m ch) ->
  lines_logged env n steps = lines_logged env m steps.
Proof.
  intros Hnm. induction steps as [| [ch payload |] rest IH]; cbn [lines_logged];
    [reflexivity | | exact IH].
  now rewrite Hnm, IH.
Qed.

(** What [run_conversion] does once the worker is started: it never
    raises; unless the worker stays blocked, it returns the joined
    accumulator and the path recorded, after every statement of the
    engine has had its effect. *)
Lemma run_conversion_job (env : Env) (inp : Inputs) (s s' : State)
      (t0 : ConversionThread) (out : Res (string * PyVal)) :
  started_job env inp = Some t0 ->
  run_conversion env inp s = (out, s') ->
  let steps := fst (engine_run env t0) in
  (out = Hang \/
   exists c',
     out = Normal (result_of (py_join newline (logs s')) c') /\
     running s' (thread_after_steps steps t0) c' /\
     path c' = path_reported PNone steps /\
     (never_finished steps = true -> c' = {| status := PNone; path := PNone |}) /\
     logs s' = py_last 1000 (history env (listeners s) steps)) /\
  (asks_before_waiting false steps = true -> out <> Hang).
Proof.
  intros Hjob Hrun steps.
  destruct (started_job_facts env inp t0 Hjob) as (Hev & _ & _).
  rewrite (run_conversion_started env inp s t0 Hjob) in Hrun.
  unfold try_except, bind, Thread_join, worker_run in Hrun.
  change (thread (job_state s t0)) with (Some t0) in Hrun. cbv iota in Hrun.
  unfold steps. clear steps.
  destruct (engine_run env t0) as [steps final]. cbn [fst].
  unfold bind in Hrun.
  destruct (run_steps env steps (job_state s t0)) as [o s1] eqn:Hsteps.
  assert (Hlen : List.length (logs (job_state s t0)) <= 1000) by (simpl; lia).
  apply (run_steps_spec env steps (job_state s t0) s1 t0 _ o
           (job_state_running s t0) Hlen) in Hsteps.
  destruct Hsteps as (Hres & Hask). rewrite Hev in Hask.
  assert (Hdone :
            o = Normal tt ->
            exists c',
              out = Normal (result_of (py_join newline (logs s')) c') /\
              running s' (thread_after_steps steps t0) c' /\
              path c' = path_reported PNone steps /\
              (never_finished steps = true ->
               c' = {| status := PNone; path := PNone |}) /\
              logs s' = py_last 1000 (history env (listeners s) steps)).
  { intros Ho.
    destruct Hres as [Hh | (_ & c' & Hr' & Hp' & Hnf' & _ & Hl')]; [congruence |].
    subst o. destruct Hr' as (Ht' & Hc' & Hsub').
    exists c'.
    assert (Hfin : (out, s')
                   = (Normal (result_of (py_join newline (logs s1)) c'), s1)).
    { rewrite <- Hrun.
      destruct final as [e |]; unfold ret, raise, gets; cbn;
        rewrite Hc'; reflexivity. }
    inversion Hfin; subst.
    split; [reflexivity | split; [split; [| split]; assumption |]].
    split; [exact Hp' | split; [exact Hnf' |]].
    rewrite Hl'. unfold history.
    rewrite (lines_logged_ext env _ (listeners s) steps (job_state_listeners s t0)).
    reflexivity. }
  split.
  - destruct o as [[] | e | ].
    + right. now apply Hdone.
    + destruct Hres as [Hh | (Hn & _)]; discriminate.
    + left. inversion Hrun. reflexivity.
  - intros Hproto Hhang. specialize (Hask Hproto).
    destruct (Hdone Hask) as (c' & Hout & _). congruence.
Qed.

(** However its worker ends, a job that was started leaves the thread
    object it configured, started. *)
Lemma run_conversion_thread (env : Env) (inp : Inputs) (s : State)
      (t0 : ConversionThread) :
  started_job env inp = Some t0 ->
  exists t,
    thread (snd (run_conversion env inp s)) = Some t /\
    args t = args t0 /\
    is_direct_text t = is_direct_text t0 /\
    started t = true /\
    signals (snd (run_conversion env inp s)) = signals (job_state s t0) /\
    List.length (logs (snd (run_conversion env inp s))) <= 1000.
Proof.
  intros Hjob.
  destruct (started_job_facts env inp t0 Hjob) as (_ & Hst0 & _).
  rewrite (run_conversion_started env inp s t0 Hjob).
  unfold try_except, bind, Thread_join, worker_run.
  change (thread (job_state s t0)) with (Some t0). cbv iota.
  destruct (engine_run env t0) as [steps final].
  unfold bind.
  assert (Hlen : List.length (logs (job_state s t0)) <= 1000) by (simpl; lia).
  destruct (run_steps_keeps env steps (job_state s t0) t0 _
              (job_state_running s t0) Hlen)
    as (t & c & (Ht & Hc & _) & Ha & Hd & Hst & Hsig & Hl).
  exists t. rewrite Ha, Hd, Hst, <- Hsig.
  destruct (run_steps env steps (job_state s t0)) as [[[] | e |] s1];
    cbn [snd] in Ht, Hc, Hl |- *.
  - destruct final; unfold ret, raise, gets; cbn; rewrite Hc; cbn;
      repeat split; auto.
  - unfold ret, gets; cbn. rewrite Hc. cbn. repeat split; auto.
  - cbn. repeat split; auto.
Qed.

(** ** Input validation *)

Lemma lstrip_blank (s : string) : blank s = true -> lstrip s = EmptyString.
Proof.
  induction s as [| c rest IH]; simpl; [reflexivity |].
  intros H. apply andb_true_iff in H. destruct H as [Hc Hrest].
  rewrite Hc. now apply IH.
Qed.

Lemma lstrip_empty_blank (s : string) : lstrip s = EmptyString -> blank s = true.
Proof.
  induction s as [| c rest IH]; simpl; [reflexivity |].
  destruct (is_space c); simpl; [exact IH | discriminate].
Qed.

Lemma rstrip_empty_blank (s : string) : rstrip s = EmptyString -> blank s = true.
Proof.
  induction s as [| c rest IH]; simpl; [reflexivity |].
  destruct (rstrip rest) as [| c' kept]; [| discriminate].
  destruct (is_space c); simpl; [intros _; now apply IH | discriminate].
Qed.

Lemma lstrip_head (s : string) (c : ascii) (rest : string) :
  lstrip s = String c rest -> is_space c = false.
Proof.
  induction s as [| d more IH]; simpl; [discriminate |].
  destruct (is_space d) eqn:Hd; [exact IH |].
  intros H. inversion H; subst. exact Hd.
Qed.

(** The test of line 150 fails exactly on a payload that is empty or
    whitespace-only. *)
Lemma strip_truthy_iff (s : string) :
  py_truthy (PStr (strip s)) = negb (blank s).
Proof.
  unfold py_truthy, strip.
  destruct (blank s) eqn:Hb.
  - now rewrite (lstrip_blank s Hb).
  - destruct (lstrip s) as [| c rest] eqn:Hl.
    + apply lstrip_empty_blank in Hl. congruence.
    + destruct (rstrip (String c rest)) as [| c' kept] eqn:Hr; [| reflexivity].
      apply rstrip_empty_blank in Hr. simpl in Hr.
      rewrite (lstrip_head s c rest Hl) in Hr. discriminate.
Qed.

Lemma determine_input_spec (inp : Inputs) :
  determine_input inp
  = match file_input inp with
    | Some f => Some (name f, false)
    | None => if text_given inp then Some (text_input inp, true) else None
    end.
Proof.
  unfold determine_input, text_given.
  destruct (file_input inp); [reflexivity |].
  now rewrite strip_truthy_iff.
Qed.

(** The ways out of [run_conversion] before a worker is started. *)
Lemma run_conversion_early (env : Env) (inp : Inputs) (s s' : State)
      (out : Res (string * PyVal)) :
  started_job env inp = None ->
  run_conversion env inp s = (out, s') ->
  ((exists e, out = Raise e) \/ (exists msg, out = Normal (msg, PNone))) /\
  worker_started s' = false /\
  List.length (logs s') <= 1.
Proof.
  unfold started_job, run_conversion. intros Hjob.
  destruct (determine_input inp) as [[file_name direct] |] eqn:Hin.
  2:{ run_handler. intros H. inversion H; subst. unfold worker_started. simpl.
      split; [right; eauto | split; [reflexivity | lia]]. }
  run_handler.
  destruct (load_numpy_kpipeline env) as [e | [np kp]] eqn:Hld.
  { intros H. inversion H; subst. unfold worker_started. simpl.
    split; [right; eauto | split; [reflexivity | lia]]. }
  cbv zeta in Hjob.
  destruct (makedirs env (os_path_join (getcwd env) "output")) eqn:Hmk.
  { intros H. inversion H; subst. unfold worker_started. simpl.
    split; [left; eauto | split; [reflexivity | lia]]. }
  destruct (py_float env (speed inp)) as [e | sp] eqn:Hfl.
  { intros H. inversion H; subst. unfold worker_started. simpl.
    split; [right; eauto | split; [reflexivity | lia]]. }
  destruct (init_fault env _) eqn:Hinit.
  { intros H. inversion H; subst. unfold worker_started. simpl.
    split; [right; eauto | split; [reflexivity | lia]]. }
  destruct (start_fault env) eqn:Hst; [| discriminate].
  intros H. inversion H; subst. unfold worker_started. simpl.
  split; [right; eauto | split; [reflexivity | lia]].
Qed.

(** ** The claims about the handler *)

(** C2. While a job runs, publishing the chapters-detected notification
    with the chapter count returns normally and leaves the default
    decision applied ([save_chapters_separately = False],
    [merge_chapters_at_end = True]) and the decision event set, so the
    worker's wait on that event, which follows, returns at once. *)
Theorem chapters_detected_resolves_the_wait :
  forall (env : Env) (s : State) (t : ConversionThread) (c : Container)
         (count : PyVal),
    running s t c ->
    exists s' t',
      engine_step env (Emit chapters_detected [count]) s = (Normal tt, s') /\
      thread s' = Some t' /\
      save_chapters_separately t' = Some false /\
      merge_chapters_at_end t' = Some true /\
      chapter_options_event t' = true /\
      engine_step env WaitChapterOptions s' = (Normal tt, s').
Proof.
  intros env s t c count Hrun.
  destruct (engine_step_emit_any env chapters_detected [count] s t c Hrun)
    as (s' & Hstep & (Ht' & _ & _) & _).
  exists s', (accept_defaults t).
  repeat split; try assumption.
  unfold engine_step. rewrite Ht'. reflexivity.
Qed.

Lemma chapters_detected_resolves_the_wait_witness :
  let env := Sample.env Sample.pipeline (Sample.book, None) in
  let inp := Sample.form "Hello" None in
  exists t0,
    started_job env inp = Some t0 /\
    exists s' t',
      engine_step env (Emit chapters_detected [PInt 3])
        (job_state Sample.idle t0) = (Normal tt, s') /\
      thread s' = Some t' /\
      save_chapters_separately t' = Some false /\
      merge_chapters_at_end t' = Some true /\
      chapter_options_event t' = true /\
      engine_step env WaitChapterOptions s' = (Normal tt, s').
Proof.
  intros env inp.
  eexists. split; [reflexivity |].
  eapply chapters_detected_resolves_the_wait.
  split; [reflexivity | split; [reflexivity |]].
  intros ch. exists []. split; [destruct ch; reflexivity | constructor].
Defined.

(** With an engine that waits for the decision only after having asked
    for it, the handler is never left blocked and never raises: it
    returns. *)
Theorem run_conversion_never_blocks :
  forall (env : Env) (inp : Inputs) (s : State) (t0 : ConversionThread),
    started_job env inp = Some t0 ->
    asks_before_waiting false (fst (engine_run env t0)) = true ->
    exists r, fst (run_conversion env inp s) = Normal r.
Proof.
  intros env inp s t0 Hjob Hproto.
  destruct (run_conversion env inp s) as [out s'] eqn:Hrun.
  destruct (run_conversion_job env inp s s' t0 out Hjob Hrun) as (Hres & Hask).
  destruct Hres as [Hh | (c' & Hout & _)].
  - exfalso. now apply Hask.
  - simpl. eauto.
Qed.




(** The accumulator never holds more than 1000 lines while the engine
    runs, however the run ends. *)

(** A worker that waits for the decision it has not asked for keeps
    [run_conversion] from returning. *)
Lemma run_conversion_blocked (env : Env) (inp : Inputs) (s : State)
      (t0 : ConversionThread) :
  started_job env inp = Some t0 ->
  asks_before_waiting false (fst (engine_run env t0)) = false ->
  fst (run_conversion env inp s) = Hang.
Proof.
  intros Hjob Hproto.
  destruct (started_job_facts env inp t0 Hjob) as (Hev & _).
  rewrite (run_conversion_started env inp s t0 Hjob).
  unfold try_except, bind, Thread_join, worker_run.
  change (thread (job_state s t0)) with (Some t0). cbv iota.
  destruct (engine_run env t0) as [steps final]. cbn [fst] in Hproto.
  unfold bind.
  assert (Hblock : fst (run_steps env steps (job_state s t0)) = Hang).
  { apply (run_steps_blocks env steps (job_state s t0) t0
             {| status := PNone; path := PNone |}).
    - apply job_state_running.
    - simpl. lia.
    - now rewrite Hev. }
  destruct (run_steps env steps (job_state s t0)) as [o s1]. cbn [fst] in Hblock.
  subst o. reflexivity.
Qed.

(** Leaving before a worker is started, with an input given: the
    accumulator holds the handler's own line. *)
Lemma run_conversion_early_logs (env : Env) (inp : Inputs) (s : State) :
  determine_input inp <> None ->
  started_job env inp = None ->
  logs (snd (run_conversion env inp s)) = ["Loading Kokoro pipeline..."].
Proof.
  unfold started_job. run_handler. intros Hin.
  destruct (determine_input inp) as [[file_name direct] |]; [| now elim Hin].
  destruct (load_numpy_kpipeline env) as [e | [np kp]]; [reflexivity |].
  destruct (makedirs env _); [reflexivity |].
  destruct (py_float env (speed inp)) as [e | sp]; [reflexivity |].
  destruct (init_fault env _); [reflexivity |].
  destruct (start_fault env); [reflexivity | discriminate].
Qed.

Lemma run_conversion_logs_bounded (env : Env) (inp : Inputs) (s : State) :
  List.length (logs (snd (run_conversion env inp s))) <= 1000.
Proof.
  destruct (started_job env inp) as [t0 |] eqn:Hjob.
  - destruct (run_conversion_thread env inp s t0 Hjob)
      as (t & _ & _ & _ & _ & _ & Hl).
    exact Hl.
  - destruct (run_conversion env inp s) as [out s'] eqn:Hrun.
    destruct (run_conversion_early env inp s s' out Hjob Hrun) as (_ & _ & Hl).
    simpl. lia.
Qed.

(** C5. [log_callback] appends the line of the message (the text of its
    first item, for a tuple) at the end of the accumulator, keeping the
    order; when that makes more than 1000 lines, the oldest are dropped
    and exactly the last 1000 remain; only the empty tuple, which it
    cannot read, leaves the accumulator as it was.  [run_conversion]
    empties the accumulator first: what it leaves is nothing when the
    submission is rejected, its own first line when it leaves before a
    worker is started, and else the last 1000 lines of the history of
    the job; never more than 1000 lines, and never a line that was
    there before. *)
Theorem log_accumulator_keeps_last_1000 :
  forall (env : Env) (msg : PyVal) (inp : Inputs) (s : State),
    let line := py_str (py_repr env) (logged_part msg) in
    let appended := logs s ++ [line] in
    let r := run_conversion env inp s in
    match msg with
    | PTuple [] => log_callback env msg s = (Some index_error, s)
    | _ =>
        log_callback env msg s
        = (None,
           set_logs (if (1000 <? List.length appended)%nat
                     then skipn (List.length appended - 1000) appended
                     else appended) s) /\
        List.length (logs (snd (log_callback env msg s)))
        = Nat.min 1000 (List.length appended)
    end /\
    match determine_input inp with
    | None => logs (snd r) = []
    | Some _ =>
        match started_job env inp with
        | None => logs (snd r) = ["Loading Kokoro pipeline..."]
        | Some t0 =>
            if asks_before_waiting false (fst (engine_run env t0))
            then logs (snd r)
                 = py_last 1000 (history env (listeners s) (fst (engine_run env t0)))
            else fst r = Hang
        end
    end /\
    r = run_conversion env inp (set_logs [] s) /\
    List.length (logs (snd r)) <= 1000.
Proof.
  intros env msg inp s line appended r.
  split; [| split; [| split]].
  - assert (Hmain :
              logged_line env [msg] = Some line ->
              log_callback env msg s
              = (None,
                 set_logs (if (1000 <? List.length appended)%nat
                           then skipn (List.length appended - 1000) appended
                           else appended) s) /\
              List.length (logs (snd (log_callback env msg s)))
              = Nat.min 1000 (List.length appended)).
    { intros Hline. rewrite log_callback_spec, Hline. cbn [snd logs set_logs].
      rewrite py_last_length. split; [| reflexivity].
      unfold py_last. fold appended.
      destruct (Nat.ltb_spec 1000 (List.length appended)) as [Hgt | Hle];
        [reflexivity |].
      replace (List.length appended - 1000) with 0 by lia. reflexivity. }
    destruct msg as [| z | str | [| m items] | shown truth];
      try (apply Hmain; reflexivity).
    reflexivity.
  - subst r.
    destruct (determine_input inp) as [[file_name direct] |] eqn:Hin.
    + destruct (started_job env inp) as [t0 |] eqn:Hjob.
      * destruct (asks_before_waiting false (fst (engine_run env t0))) eqn:Hproto.
        -- destruct (run_conversion env inp s) as [out s'] eqn:Hrun.
           destruct (run_conversion_job env inp s s' t0 out Hjob Hrun)
             as ([Hh | (c' & _ & _ & _ & _ & Hl')] & Hask).
           ++ exfalso. now apply Hask.
           ++ exact Hl'.
        -- now apply run_conversion_blocked with (t0 := t0).
      * apply run_conversion_early_logs; [| exact Hjob]. rewrite Hin. discriminate.
    + unfold run_conversion. rewrite Hin. reflexivity.
  - reflexivity.
  - apply run_conversion_logs_bounded.
Qed.

(** C7. When an input is given and [load_numpy_kpipeline] raises,
    [run_conversion] returns a message that embeds the description of
    the fault, with no file, and no worker has been constructed or
    started. *)
Theorem pipeline_load_fault_is_reported :
  forall (env : Env) (inp : Inputs) (s : State) (e : exn),
    file_given inp || text_given inp = true ->
    load_numpy_kpipeline env = inl e ->
    let r := run_conversion env inp s in
    fst r = Normal (("Error loading pipeline: " ++ exn_str e)%string, PNone) /\
    worker_constructed (snd r) = false /\
    worker_started (snd r) = false /\
    started_job env inp = None.
Proof.
  intros env inp s e Hgiven Hload r.
  assert (Hin : exists file_name direct,
             determine_input inp = Some (file_name, direct)).
  { rewrite determine_input_spec. unfold file_given in Hgiven.
    destruct (file_input inp) as [f |]; [eauto |].
    simpl in Hgiven. rewrite Hgiven. eauto. }
  destruct Hin as (file_name & direct & Hin).
  unfold r, run_conversion, started_job. rewrite Hin, Hload.
  repeat split.
Qed.

Lemma pipeline_load_fault_is_reported_witness :
  let r := run_conversion (Sample.env (inl Sample.boom) (Sample.book, None))
             (Sample.form "Hello" None) Sample.idle in
  fst r = Normal ("Error loading pipeline: CUDA out of memory", PNone) /\
  worker_constructed (snd r) = false /\
  worker_started (snd r) = false /\
  started_job (Sample.env (inl Sample.boom) (Sample.book, None))
    (Sample.form "Hello" None) = None.
Proof.
  apply (pipeline_load_fault_is_reported
           (Sample.env (inl Sample.boom) (Sample.book, None))
           (Sample.form "Hello" None) Sample.idle Sample.boom); reflexivity.
Defined.

Lemma never_finished_path (steps : list EngineStep) (p0 : PyVal) :
  never_finished steps = true -> path_reported p0 steps = p0.
Proof.
  induction steps as [| st rest IH]; simpl; [reflexivity |].
  destruct st as [ch payload |]; [| exact IH].
  destruct ch; try exact IH. discriminate.
Qed.

(** C8. When the worker of a started job runs to its end (the engine
    does not wait for a decision it has not asked for) without the
    job-finished notification ever being published, [run_conversion]
    returns: the text is the joined accumulator, which holds the last
    1000 lines of the history of the job, there is no file, and the
    result container is as it was created. *)
Theorem silent_completion_returns_logs_without_file :
  forall (env : Env) (inp : Inputs) (s : State) (t0 : ConversionThread),
    started_job env inp = Some t0 ->
    asks_before_waiting false (fst (engine_run env t0)) = true ->
    never_finished (fst (engine_run env t0)) = true ->
    let s' := snd (run_conversion env inp s) in
    fst (run_conversion env inp s) = Normal (py_join newline (logs s'), PNone) /\
    logs s' = py_last 1000 (history env (listeners s) (fst (engine_run env t0))) /\
    result_container s' = Some {| status := PNone; path := PNone |}.
Proof.
  intros env inp s t0 Hjob Hproto Hnever s'.
  unfold s'. clear s'.
  destruct (run_conversion env inp s) as [out s'] eqn:Hrun.
  destruct (run_conversion_job env inp s s' t0 out Hjob Hrun)
    as ([Hh | (c' & Hout & (_ & Hc' & _) & _ & Hnf' & Hl')] & Hask).
  - exfalso. now apply Hask.
  - specialize (Hnf' Hnever). subst c'. cbn [fst snd].
    split; [exact Hout | split; [exact Hl' | exact Hc']].
Qed.

Lemma silent_completion_returns_logs_without_file_witness :
  let env := Sample.env Sample.pipeline
               ([Emit log_updated [PStr "Reading"]], None) in
  let inp := Sample.form "Hello" None in
  let s' := snd (run_conversion env inp Sample.idle) in
  fst (run_conversion env inp Sample.idle)
  = Normal (py_join newline (logs s'), PNone) /\
  logs s'
  = py_last 1000
      (history env (listeners Sample.idle)
         (fst (engine_run env (Sample.hello_thread env)))) /\
  result_container s' = Some {| status := PNone; path := PNone |}.
Proof.
  intros env inp.
  exact (silent_completion_returns_logs_without_file env inp Sample.idle
           (Sample.hello_thread env) eq_refl eq_refl eq_refl).
Defined.

Lemma history_once (env : Env) (s : State) (steps : list EngineStep) :
  no_log_subscriber s ->
  history env (listeners s) steps = history env once steps.
Proof.
  intros Hnone. unfold history. f_equal.
  apply lines_logged_ext. intros ch. unfold listeners. now rewrite Hnone.
Qed.

(** C4, as stated, fails: a job that logs 1005 lines and reports a path
    reaches the success branch, and the text returned is not its full
    log history, which has 1006 lines: the first six were dropped. *)
Lemma long_history_is_cut :
  let env := Sample.env Sample.pipeline (Sample.numbered 1005, None) in
  let inp := Sample.form "Hello" None in
  let full := history env once (Sample.numbered 1005) in
  exists txt,
    fst (run_conversion env inp Sample.idle)
    = Normal (txt, PStr "/app/output/book.mp3") /\
    List.length full = 1006 /\
    txt = py_join newline (skipn 6 full) /\
    txt <> py_join newline full.
Proof.
  intros env inp full.
  eexists. split; [vm_compute; reflexivity |].
  split; [vm_compute; reflexivity |].
  split; [vm_compute; reflexivity |].
  apply String.eqb_neq. vm_compute. reflexivity.
Qed.

(** C4, amended. When [run_conversion], called with no [on_log] closure
    of an earlier job subscribed, returns a file (the success branch), a
    worker was started; the text returned is the newline-joined last
    1000 lines of the log history of the job, in order (all of it while
    it has at most 1000 lines), and the file returned is the output path
    of the engine's last job-finished notification. *)
Theorem success_returns_log_history_and_reported_path :
  forall (env : Env) (inp : Inputs) (s s' : State) (log_str : string)
         (file : PyVal),
    no_log_subscriber s ->
    run_conversion env inp s = (Normal (log_str, file), s') ->
    py_truthy file = true ->
    exists t0,
      started_job env inp = Some t0 /\
      log_str
      = py_join newline (py_last 1000 (history env once (fst (engine_run env t0)))) /\
      (List.length (history env once (fst (engine_run env t0))) <= 1000 ->
       log_str = py_join newline (history env once (fst (engine_run env t0)))) /\
      file = path_reported PNone (fst (engine_run env t0)).
Proof.
  intros env inp s s' log_str file Hnone Hrun Htruthy.
  destruct (started_job env inp) as [t0 |] eqn:Hjob.
  - exists t0. split; [reflexivity |].
    destruct (run_conversion_job env inp s s' t0 _ Hjob Hrun)
      as ([Hh | (c' & Hout & _ & Hp' & _ & Hl')] & _); [discriminate |].
    rewrite (history_once env s _ Hnone) in Hl'.
    unfold result_of in Hout.
    destruct (py_truthy (path c')) eqn:Hpath; inversion Hout; subst.
    + rewrite Hl'. split; [reflexivity | split; [| exact Hp']].
      intros Hshort. rewrite py_last_short by exact Hshort. reflexivity.
    + discriminate.
  - destruct (run_conversion_early env inp s s' _ Hjob Hrun)
      as ([(e & He) | (msg & Hmsg)] & _); [discriminate |].
    inversion Hmsg; subst. discriminate.
Qed.

Lemma success_returns_log_history_and_reported_path_witness :
  let env := Sample.env Sample.pipeline (Sample.book, None) in
  let inp := Sample.form "Hello" None in
  let log_str := py_join newline ["Loading Kokoro pipeline..."; "Reading"; "Done"] in
  exists t0,
    started_job env inp = Some t0 /\
    log_str
    = py_join newline (py_last 1000 (history env once (fst (engine_run env t0)))) /\
    (List.length (history env once (fst (engine_run env t0))) <= 1000 ->
     log_str = py_join newline (history env once (fst (engine_run env t0)))) /\
    PStr "/app/output/book.mp3" = path_reported PNone (fst (engine_run env t0)).
Proof.
  intros env inp log_str.
  assert (Hnone : no_log_subscriber Sample.idle) by (intros ch; reflexivity).
  assert (Hrun : run_conversion env inp Sample.idle
                 = (Normal (log_str, PStr "/app/output/book.mp3"),
                    snd (run_conversion env inp Sample.idle)))
    by (vm_compute; reflexivity).
  exact (success_returns_log_history_and_reported_path env inp Sample.idle _
           log_str (PStr "/app/output/book.mp3") Hnone Hrun eq_refl).
Defined.

(** ** Faults *)

Lemma run_steps_without_final_fault (env : Env) (steps : list EngineStep) :
  forall s : State,
    run_steps (without_final_fault env) steps s = run_steps env steps s.
Proof.
  induction steps as [| st rest IH]; intros s; simpl; [reflexivity |].
  unfold bind.
  change (engine_step (without_final_fault env) st s) with (engine_step env st s).
  destruct (engine_step env st s) as [[[] | e |] s1]; [apply IH | reflexivity ..].
Qed.

(** A fault that ends the engine's [run] changes nothing to [join]. *)
Lemma thread_join_without_final_fault (env : Env) (s : State) :
  Thread_join (without_final_fault env) s = Thread_join env s.
Proof.
  unfold Thread_join, worker_run.
  destruct (thread s) as [t |]; [| reflexivity].
  cbn [engine_run without_final_fault].
  destruct (engine_run env t) as [steps final]. cbn [fst].
  unfold bind. rewrite run_steps_without_final_fault.
  destruct (run_steps env steps s) as [[[] | e |] s1];
    destruct final; reflexivity.
Qed.

Lemma run_conversion_without_final_fault (env : Env) (inp : Inputs) (s : State) :
  run_conversion (without_final_fault env) inp s = run_conversion env inp s.
Proof.
  destruct (started_job env inp) as [t0 |] eqn:Hjob.
  - rewrite (run_conversion_started env inp s t0 Hjob).
    rewrite (run_conversion_started (without_final_fault env) inp s t0 Hjob).
    unfold try_except, bind.
    rewrite thread_join_without_final_fault. reflexivity.
  - revert Hjob. unfold started_job. run_handler.
    cbn [load_numpy_kpipeline getcwd makedirs py_float init_fault start_fault
         without_final_fault].
    destruct (determine_input inp) as [[file_name direct] |]; [| reflexivity].
    destruct (load_numpy_kpipeline env) as [e | [np kp]]; [reflexivity |].
    destruct (makedirs env _); [reflexivity |].
    destruct (py_float env (speed inp)) as [e | sp]; [reflexivity |].
    change (job_args (without_final_fault env)) with (job_args env).
    destruct (init_fault env _); [reflexivity |].
    destruct (start_fault env); [reflexivity | discriminate].
Qed.

Lemma input_given (inp : Inputs) :
  file_given inp || text_given inp = true ->
  exists file_name direct, determine_input inp = Some (file_name, direct).
Proof.
  intros Hgiven. rewrite determine_input_spec. unfold file_given in Hgiven.
  destruct (file_input inp) as [f |]; [eauto |].
  simpl in Hgiven. rewrite Hgiven. eauto.
Qed.

(** Inside the second [try], a fault of the handler's own thread is
    returned as the error report. *)
Lemma handler_fault_reported (env : Env) (inp : Inputs) (s : State) (e : exn) :
  makedirs env (os_path_join (getcwd env) "output") = None ->
  handler_fault env inp = Some e ->
  fst (run_conversion env inp s) = Normal (error_report env e, PNone).
Proof.
  unfold handler_fault. run_handler. intros Hmk.
  destruct (determine_input inp) as [[file_name direct] |]; [| discriminate].
  destruct (load_numpy_kpipeline env) as [e0 | [np kp]]; [discriminate |].
  rewrite Hmk.
  destruct (py_float env (speed inp)) as [e0 | sp].
  { intros H; inversion H; reflexivity. }
  destruct (init_fault env _).
  { intros H; inversion H; reflexivity. }
  intros H. rewrite H. reflexivity.
Qed.

(** Once the second [try] is entered, [run_conversion] does not raise. *)
Lemma no_fault_escapes_the_try (env : Env) (inp : Inputs) (s : State)
      (loaded : PyVal * PyVal) (e : exn) :
  file_given inp || text_given inp = true ->
  load_numpy_kpipeline env = inr loaded ->
  makedirs env (os_path_join (getcwd env) "output") = None ->
  fst (run_conversion env inp s) <> Raise e.
Proof.
  intros Hgiven Hload Hmk.
  destruct (started_job env inp) as [t0 |] eqn:Hjob.
  - destruct (run_conversion env inp s) as [out s'] eqn:Hrun.
    destruct (run_conversion_job env inp s s' t0 out Hjob Hrun)
      as ([Hh | (c' & Hout & _)] & _); simpl; congruence.
  - destruct (input_given inp Hgiven) as (file_name & direct & Hin).
    revert Hjob. unfold started_job. run_handler. rewrite Hin, Hload, Hmk.
    destruct loaded as [np kp].
    destruct (py_float env (speed inp)) as [e0 | sp]; [discriminate |].
    destruct (init_fault env _); [discriminate |].
    destruct (start_fault env); discriminate.
Qed.

(** C6, as stated, fails: the engine's [run] ends in a fault, and the
    handler returns the log text, which says nothing of the fault,
    instead of an error string. *)
Lemma worker_fault_is_not_reported :
  let env := Sample.env Sample.pipeline
               ([Emit log_updated [PStr "Reading"]], Some Sample.boom) in
  let inp := Sample.form "Hello" None in
  started_job env inp = Some (Sample.hello_thread env) /\
  fst (worker_run env (job_state Sample.idle (Sample.hello_thread env)))
  = Raise Sample.boom /\
  fst (run_conversion env inp Sample.idle)
  = Normal (py_join newline ["Loading Kokoro pipeline..."; "Reading"], PNone) /\
  fst (run_conversion env inp Sample.idle)
  <> Normal (error_report env Sample.boom, PNone).
Proof.
  cbv zeta. repeat split. vm_compute. discriminate.
Qed.

(** C6, amended. For an invocation that gets as far as the second
    [try] (an input was given, the pipeline loaded and the output
    directory was created): no fault escapes [run_conversion]; a fault
    raised on the handler's own thread inside that [try] (by
    [float(speed)], by the constructor or by [thread.start()]) is
    returned as the error string with the traceback and no file; a fault
    that ends the worker's [run] is not reported: the handler returns
    what it returns when the same run ends without it. *)
Theorem handler_faults_are_reported_worker_faults_are_not :
  forall (env : Env) (inp : Inputs) (s : State) (loaded : PyVal * PyVal),
    file_given inp || text_given inp = true ->
    load_numpy_kpipeline env = inr loaded ->
    makedirs env (os_path_join (getcwd env) "output") = None ->
    (forall e, fst (run_conversion env inp s) <> Raise e) /\
    match handler_fault env inp with
    | Some e => fst (run_conversion env inp s) = Normal (error_report env e, PNone)
    | None => True
    end /\
    run_conversion env inp s = run_conversion (without_final_fault env) inp s.
Proof.
  intros env inp s loaded Hgiven Hload Hmk.
  split; [| split].
  - intros e. now apply no_fault_escapes_the_try with (loaded := loaded).
  - destruct (handler_fault env inp) as [e |] eqn:Hf; [| exact I].
    now apply handler_fault_reported.
  - symmetry. apply run_conversion_without_final_fault.
Qed.

Lemma handler_faults_are_reported_worker_faults_are_not_witness :
  let env :=
    {| load_numpy_kpipeline := Sample.pipeline;
       getcwd := "/app";
       makedirs := fun _ => None;
       time_time := PObj "1700000000.0" true;
       py_float := fun v => inr v;
       init_fault := fun _ => Some Sample.boom;
       start_fault := None;
       engine_run := fun _ => (Sample.book, Some Sample.boom);
       progress := fun _ _ => None;
       arity_error := fun f _ => Exn "TypeError" f;
       py_repr := fun _ => "(...)";
       format_exc := fun e => exn_class e |} in
  let inp := Sample.form "Hello" None in
  (forall e, fst (run_conversion env inp Sample.idle) <> Raise e) /\
  fst (run_conversion env inp Sample.idle)
  = Normal (error_report env Sample.boom, PNone) /\
  run_conversion env inp Sample.idle
  = run_conversion (without_final_fault env) inp Sample.idle.
Proof.
  intros env inp.
  exact (handler_faults_are_reported_worker_faults_are_not
           env inp Sample.idle
           (PObj "<module 'numpy'>" true, PObj "<class 'KPipeline'>" true)
           eq_refl eq_refl eq_refl).
Defined.

(** C10. With an uploaded file, whatever the text payload, and when
    nothing fails on the way to the worker: validation passes with the
    file's path as input and [is_direct_text = False]; [run_conversion]
    constructs and starts a thread object whose [file_name] is the
    file's path, whose [is_direct_text] is [False] and whose character
    count is 1000, not the length of the text; and the text payload has
    no influence on what [run_conversion] does. *)
Theorem uploaded_file_takes_precedence :
  forall (env : Env) (inp : Inputs) (f : UploadedFile) (text text' : string)
         (s : State) (loaded : PyVal * PyVal) (sp : PyVal),
    let given := with_text text (with_file (Some f) inp) in
    load_numpy_kpipeline env = inr loaded ->
    makedirs env (os_path_join (getcwd env) "output") = None ->
    py_float env (speed inp) = inr sp ->
    (forall a, init_fault env a = None) ->
    start_fault env = None ->
    determine_input given = Some (name f, false) /\
    (exists t,
        thread (snd (run_conversion env given s)) = Some t /\
        started t = true /\
        arg_file_name (args t) = name f /\
        is_direct_text t = Some false /\
        arg_total_char_count (args t) = 1000) /\
    run_conversion env given s
    = run_conversion env (with_text text' (with_file (Some f) inp)) s.
Proof.
  intros env inp f text text' s [np kp] sp given Hload Hmk Hfl Hinit Hst.
  split; [reflexivity | split; [| reflexivity]].
  assert (Hjob : exists t0, started_job env given = Some t0).
  { unfold started_job.
    change (determine_input given) with (Some (name f, false)).
    cbv iota beta zeta. rewrite Hload, Hmk.
    change (speed given) with (speed inp). rewrite Hfl, Hinit, Hst. eauto. }
  destruct Hjob as (t0 & Hjob).
  destruct (run_conversion_thread env given s t0 Hjob)
    as (t & Ht & Ha & Hd & Hs & _).
  destruct (started_job_facts env given t0 Hjob)
    as (_ & _ & file_name & direct & Hin & Hname & Hdirect & Hcount).
  change (determine_input given) with (Some (name f, false)) in Hin.
  injection Hin as Hn Hdir.
  exists t. rewrite Ha, Hd.
  split; [exact Ht | split; [exact Hs | split; [congruence | split; [congruence |]]]].
  rewrite Hcount, <- Hdir. reflexivity.
Qed.

Lemma uploaded_file_takes_precedence_witness :
  let env := Sample.env Sample.pipeline (Sample.book, None) in
  let given := with_text "Hello"
                 (with_file (Some {| name := "/tmp/book.epub" |})
                    (Sample.form "" None)) in
  determine_input given = Some ("/tmp/book.epub", false) /\
  (exists t,
      thread (snd (run_conversion env given Sample.idle)) = Some t /\
      started t = true /\
      arg_file_name (args t) = "/tmp/book.epub" /\
      is_direct_text t = Some false /\
      arg_total_char_count (args t) = 1000) /\
  run_conversion env given Sample.idle
  = run_conversion env
      (with_text "Other text"
         (with_file (Some {| name := "/tmp/book.epub" |}) (Sample.form "" None)))
      Sample.idle.
Proof.
  intros env given.
  apply (uploaded_file_takes_precedence env (Sample.form "" None)
           {| name := "/tmp/book.epub" |} "Hello" "Other text" Sample.idle
           (PObj "<module 'numpy'>" true, PObj "<class 'KPipeline'>" true)
           (PObj "1.0" true));
    reflexivity.
Defined.
(** * Further properties *)

(** ** MockSignal: connect, then emit *)

(** X1. A subscriber connected to a signal is called last: publishing
    on the signal after [connect] is publishing on the signal as it
    was, then the one delivery to the new subscriber, on the state the
    earlier subscribers left. *)
Theorem emit_after_connect :
  forall (St Cb : Type) (call : Cb -> list PyVal -> St -> option exn * St)
         (print : string -> St -> St) (sg : MockSignal.t Cb) (cb : Cb)
         (args : list PyVal) (s : St),
    MockSignal.emit call print (MockSignal.connect sg cb) args s
    = (MockSignal.emit call print sg args ;;
       MockSignal.deliver call print cb args) s.
Proof.
  intros St Cb call0 print0 sg cb payload s.
  unfold MockSignal.emit, MockSignal.connect. cbn [MockSignal.callbacks].
  generalize (MockSignal.callbacks sg) as cbs. intros cbs. revert s.
  induction cbs as [| first rest IH]; intros s; simpl.
  - unfold bind, ret.
    destruct (MockSignal.deliver call0 print0 cb payload s) as [[[] | e |] s'];
      reflexivity.
  - unfold bind at 1 2 3.
    destruct (MockSignal.deliver call0 print0 first payload s) as [[[] | e |] s'];
      [| reflexivity ..].
    rewrite IH. reflexivity.
Qed.

(** ** log_callback *)

(** X2. For a message given as a tuple whose first item is not itself a
    tuple, [log_callback] does what it does for that first item alone:
    the colour and anything after it are ignored. *)
Theorem log_callback_ignores_colour :
  forall (env : Env) (m : PyVal) (others : list PyVal) (s : State),
    (forall items, m <> PTuple items) ->
    log_callback env (PTuple (m :: others)) s = log_callback env m s.
Proof.
  intros env m others s Hplain.
  unfold log_callback.
  destruct m as [| z | str | items | shown truth]; try reflexivity.
  exfalso. now apply (Hplain items).
Qed.

Lemma log_callback_ignores_colour_witness :
  log_callback (Sample.env Sample.pipeline ([], None))
    (PTuple [PStr "Done"; PStr "green"]) Sample.idle
  = log_callback (Sample.env Sample.pipeline ([], None)) (PStr "Done") Sample.idle.
Proof.
  apply (log_callback_ignores_colour
           (Sample.env Sample.pipeline ([], None)) (PStr "Done") [PStr "green"]
           Sample.idle).
  intros items. discriminate.
Defined.

Lemma log_all_logs (env : Env) (msgs : list PyVal) :
  forall s : State,
    logs (log_all env msgs s)
    = fold_left (fun l line => py_last 1000 (l ++ [line])) (lines_of env msgs)
        (logs s).
Proof.
  unfold log_all.
  induction msgs as [| msg rest IH]; intros s; [reflexivity |].
  cbn [fold_left]. rewrite IH, log_callback_spec.
  unfold lines_of. cbn [flat_map].
  destruct (logged_line env [msg]) as [line |]; reflexivity.
Qed.

(** X3. Calling [log_callback] on a sequence of messages, from an
    accumulator of at most 1000 lines, leaves the last 1000 of the lines
    it held followed by the lines of the messages, in order: evicting
    after every append loses nothing that evicting once at the end would
    keep. *)
Theorem log_callback_sequence :
  forall (env : Env) (msgs : list PyVal) (s : State),
    List.length (logs s) <= 1000 ->
    logs (log_all env msgs s) = py_last 1000 (logs s ++ lines_of env msgs).
Proof.
  intros env msgs s Hlen.
  rewrite log_all_logs. now apply capped_appends.
Qed.

Lemma log_callback_sequence_witness :
  logs (log_all (Sample.env Sample.pipeline ([], None))
          [PStr "one"; PTuple []; PTuple [PStr "two"; PStr "red"]] Sample.idle)
  = py_last 1000
      (logs Sample.idle
       ++ lines_of (Sample.env Sample.pipeline ([], None))
            [PStr "one"; PTuple []; PTuple [PStr "two"; PStr "red"]]).
Proof.
  apply (log_callback_sequence (Sample.env Sample.pipeline ([], None))
           [PStr "one"; PTuple []; PTuple [PStr "two"; PStr "red"]] Sample.idle).
  simpl. lia.
Defined.

(** ** Language choices *)

Lemma prefix_app (sep rest : string) : String.prefix sep (sep ++ rest) = true.
Proof.
  induction sep as [| c sep' IH]; simpl.
  - destruct rest; reflexivity.
  - destruct (ascii_dec c c) as [_ | Hne]; [exact IH | congruence].
Qed.

Lemma split_head_app (c : ascii) (sep' code rest : string) :
  has_char c code = false ->
  split_head (String c sep') (code ++ String c sep' ++ rest) = code.
Proof.
  induction code as [| d code' IH]; intros Hc.
  - change (EmptyString ++ String c sep' ++ rest)%string
      with (String c (sep' ++ rest)).
    cbn [split_head].
    change (String c (sep' ++ rest)) with (String c sep' ++ rest)%string.
    now rewrite prefix_app.
  - simpl in Hc. apply orb_false_iff in Hc. destruct Hc as [Hcd Hrest].
    change (String d code' ++ String c sep' ++ rest)%string
      with (String d (code' ++ String c sep' ++ rest)).
    cbn [split_head String.prefix].
    destruct (ascii_dec c d) as [Heq | Hne].
    + subst d. rewrite Ascii.eqb_refl in Hcd. discriminate.
    + now rewrite IH.
Qed.

(** X4. The language code [run_conversion] parses out of a choice built
    by [get_language_choices] is the code of the item the choice was
    built from, as long as no code of the table contains a space. *)
Theorem language_choice_round_trip :
  forall (table : list (string * string)),
    forallb (fun item => negb (has_char " " (fst item))) table = true ->
    map (split_head " - ") (get_language_choices table) = map fst table.
Proof.
  intros table Hcodes. unfold get_language_choices.
  induction table as [| [code desc] rest IH]; [reflexivity |].
  cbn [forallb fst] in Hcodes.
  apply andb_true_iff in Hcodes. destruct Hcodes as [Hc Hrest].
  apply negb_true_iff in Hc.
  cbn [map fst snd]. rewrite (IH Hrest). f_equal.
  exact (split_head_app " " "- " code desc Hc).
Qed.

Lemma language_choice_round_trip_witness :
  map (split_head " - ")
      (get_language_choices
         [("a", "American English"); ("b", "British English");
          ("j", "Japanese - Kana")])
  = ["a"; "b"; "j"].
Proof.
  apply (language_choice_round_trip
           [("a", "American English"); ("b", "British English");
            ("j", "Japanese - Kana")]).
  reflexivity.
Defined.

(** ** The handler's result *)

Lemma result_of_file (txt : string) (c : Container) :
  result_of txt c = (txt, file_returned (path c)).
Proof.
  unfold result_of, file_returned, py_truthy.
  destruct (path c) as [| z | [| ch rest] | [| x items] | shown [|]];
    try reflexivity.
  destruct (Z.eqb z 0); reflexivity.
Qed.

(** X5. Once a worker is started, what [run_conversion] does is decided
    by the statements of the engine's run and by the number of [on_log]
    closures subscribed: if the engine waits for the chapter decision
    before having published the chapters-detected notification,
    [run_conversion] never returns (there is no timeout); otherwise it
    returns the last 1000 lines of the log history, joined, in which
    the line of each log notification stands once for every [on_log]
    closure subscribed, its own and those earlier jobs left; with the
    last path reported, or with [None] when that path is [None], empty
    or otherwise false. *)
Theorem started_job_outcome :
  forall (env : Env) (inp : Inputs) (s : State) (t0 : ConversionThread),
    started_job env inp = Some t0 ->
    fst (run_conversion env inp s)
    = if asks_before_waiting false (fst (engine_run env t0))
      then Normal (outcome_of env (listeners s) (fst (engine_run env t0)))
      else Hang.
Proof.
  intros env inp s t0 Hjob.
  destruct (asks_before_waiting false (fst (engine_run env t0))) eqn:Hproto.
  - destruct (run_conversion env inp s) as [out s'] eqn:Hrun.
    destruct (run_conversion_job env inp s s' t0 out Hjob Hrun) as (Hres & Hask).
    destruct Hres as [Hh | (c' & Hout & _ & Hp' & _ & Hl')].
    + exfalso. now apply Hask.
    + cbn [fst]. rewrite Hout, result_of_file, Hl', Hp'. reflexivity.
  - now apply run_conversion_blocked with (t0 := t0).
Qed.

Lemma started_job_outcome_witness :
  let env := Sample.env Sample.pipeline (Sample.book, None) in
  fst (run_conversion env (Sample.form "Hello" None) Sample.after_first_job)
  = Normal (py_join newline
              ["Loading Kokoro pipeline..."; "Reading"; "Reading"; "Done"; "Done"],
            PStr "/app/output/book.mp3").
Proof.
  intros env.
  rewrite (started_job_outcome env (Sample.form "Hello" None)
             Sample.after_first_job (Sample.hello_thread env) eq_refl).
  vm_compute. reflexivity.
Defined.

(** X6. What [run_conversion] returns depends on the state the process
    is in when it is called only through the number of [on_log]
    closures subscribed to each signal: the log lines, the thread
    object and the result container of an earlier job cannot show in
    the result of a later one; the subscribers it left can. *)
Theorem earlier_jobs_show_only_through_subscribers :
  forall (env : Env) (inp : Inputs) (s1 s2 : State),
    (forall ch, loggers (MockSignal.callbacks (signals s1 ch))
                = loggers (MockSignal.callbacks (signals s2 ch))) ->
    fst (run_conversion env inp s1) = fst (run_conversion env inp s2).
Proof.
  intros env inp s1 s2 Hsame.
  destruct (started_job env inp) as [t0 |] eqn:Hjob.
  - rewrite !(started_job_outcome env inp _ t0 Hjob).
    unfold outcome_of, history.
    rewrite (lines_logged_ext env (listeners s1) (listeners s2)); [reflexivity |].
    intros ch. unfold listeners. now rewrite Hsame.
  - revert Hjob. unfold started_job. run_handler.
    destruct (determine_input inp) as [[file_name direct] |]; [| reflexivity].
    destruct (load_numpy_kpipeline env) as [e | [np kp]]; [reflexivity |].
    destruct (makedirs env _); [reflexivity |].
    destruct (py_float env (speed inp)) as [e | sp]; [reflexivity |].
    destruct (init_fault env _); [reflexivity |].
    destruct (start_fault env); [reflexivity | discriminate].
Qed.

Lemma earlier_jobs_show_only_through_subscribers_witness :
  let env := Sample.env Sample.pipeline (Sample.book, None) in
  let inp := Sample.form "Hello" None in
  fst (run_conversion env inp Sample.idle)
  = fst (run_conversion env inp
           (set_signals
              (fun ch => MockSignal.Build [{| kind := on_finished; owner := Own |}])
              (set_logs ["one"; "two"] Sample.after_first_job))).
Proof.
  intros env inp.
  apply (earlier_jobs_show_only_through_subscribers env inp).
  intros ch. reflexivity.
Defined.

(** X7. [os.makedirs] is called outside both [try] blocks: when an
    input is given and the pipeline loads, a fault it raises leaves
    [run_conversion] as that fault, and no thread object has been
    constructed. *)
Theorem makedirs_fault_escapes :
  forall (env : Env) (inp : Inputs) (s : State) (loaded : PyVal * PyVal)
         (e : exn),
    file_given inp || text_given inp = true ->
    load_numpy_kpipeline env = inr loaded ->
    makedirs env (os_path_join (getcwd env) "output") = Some e ->
    fst (run_conversion env inp s) = Raise e /\
    worker_constructed (snd (run_conversion env inp s)) = false /\
    logs (snd (run_conversion env inp s)) = ["Loading Kokoro pipeline..."].
Proof.
  intros env inp s [np kp] e Hgiven Hload Hmk.
  assert (Hin : exists file_name direct,
             determine_input inp = Some (file_name, direct)).
  { rewrite determine_input_spec. unfold file_given in Hgiven.
    destruct (file_input inp) as [f |]; [eauto |].
    simpl in Hgiven. rewrite Hgiven. eauto. }
  destruct Hin as (file_name & direct & Hin).
  unfold worker_constructed. run_handler. rewrite Hin, Hload, Hmk.
  repeat split.
Qed.

Lemma makedirs_fault_escapes_witness :
  let env := with_makedirs_fault (Exn "PermissionError" "[Errno 13] Permission denied")
               (Sample.env Sample.pipeline (Sample.book, None)) in
  let r := run_conversion env (Sample.form "Hello" None) Sample.idle in
  fst r = Raise (Exn "PermissionError" "[Errno 13] Permission denied") /\
  worker_constructed (snd r) = false /\
  logs (snd r) = ["Loading Kokoro pipeline..."].
Proof.
  intros env r.
  apply (makedirs_fault_escapes env (Sample.form "Hello" None) Sample.idle
           (PObj "<module 'numpy'>" true, PObj "<class 'KPipeline'>" true));
    reflexivity.
Defined.

(** ** The job's configuration *)

(** No notification changes what the handler configured, the chapter
    decision included: its subscriber assigns the values already set. *)
Lemma thread_after_steps_keeps (steps : list EngineStep) :
  forall t : ConversionThread,
    merge_chapters_at_end t = Some true ->
    save_chapters_separately t = Some false ->
    let t' := thread_after_steps steps t in
    args t' = args t /\
    is_direct_text t' = is_direct_text t /\
    thread_subtitle_format t' = thread_subtitle_format t /\
    replace_single_newlines t' = replace_single_newlines t /\
    started t' = started t /\
    merge_chapters_at_end t' = Some true /\
    save_chapters_separately t' = Some false.
Proof.
  induction steps as [| st rest IH]; intros t Hm Hs; cbn [thread_after_steps].
  - cbv zeta. repeat split; assumption.
  - destruct st as [ch payload |]; [| now apply IH].
    assert (Hstep : thread_after ch payload t = t
                    \/ thread_after ch payload t = accept_defaults t).
    { unfold thread_after. destruct ch; auto.
      destruct payload as [| x0 [| x1 more]]; auto. }
    destruct Hstep as [Hsame | Hacc]; [rewrite Hsame; now apply IH |].
    rewrite Hacc.
    destruct (IH (accept_defaults t) eq_refl eq_refl)
      as (Ha & Hd & Hf & Hr & Hst & Hm' & Hs').
    cbv zeta. repeat split; assumption.
Qed.

Lemma finished_job_thread (env : Env) (inp : Inputs) (s s' : State)
      (r : string * PyVal) :
  run_conversion env inp s = (Normal r, s') ->
  worker_started s' = true ->
  exists t file_name direct sp np kp,
    thread s' = Some t /\
    determine_input inp = Some (file_name, direct) /\
    args t = job_args env inp file_name direct sp np kp
               (os_path_join (getcwd env) "output") /\
    is_direct_text t = Some direct /\
    thread_subtitle_format t = Some (subtitle_format inp) /\
    replace_single_newlines t = Some false /\
    merge_chapters_at_end t = Some true /\
    save_chapters_separately t = Some false.
Proof.
  intros Hrun Hstarted.
  destruct (started_job env inp) as [t0 |] eqn:Hjob.
  2:{ destruct (run_conversion_early env inp s s' _ Hjob Hrun) as (_ & Hno & _).
      congruence. }
  destruct (run_conversion_job env inp s s' t0 _ Hjob Hrun)
    as ([Hh | (c' & _ & (Ht' & _) & _)] & _); [discriminate |].
  destruct (started_job_shape env inp t0 Hjob)
    as (file_name & direct & sp & np & kp & Hin & Hshape).
  assert (Hm : merge_chapters_at_end t0 = Some true) by (subst t0; reflexivity).
  assert (Hs : save_chapters_separately t0 = Some false) by (subst t0; reflexivity).
  destruct (thread_after_steps_keeps (fst (engine_run env t0)) t0 Hm Hs)
    as (Ha & Hd & Hf & Hr & _ & Hm' & Hs').
  exists (thread_after_steps (fst (engine_run env t0)) t0),
    file_name, direct, sp, np, kp.
  split; [exact Ht' | split; [exact Hin |]].
  rewrite Ha, Hd, Hf, Hr, Hm', Hs'. subst t0. repeat split.
Qed.

(** X8. When [run_conversion] returns after having started a worker,
    the thread object is configured from the form alone: the uploaded
    file's path if there is a file, else the text payload itself, not
    stripped, as [file_name]; [is_direct_text] set accordingly; the
    character count the length of the text, or 1000 for a file; the
    language code what precedes the first separator of the choice. *)
Theorem job_input_comes_from_the_form :
  forall (env : Env) (inp : Inputs) (s s' : State) (r : string * PyVal),
    run_conversion env inp s = (Normal r, s') ->
    worker_started s' = true ->
    exists t,
      thread s' = Some t /\
      arg_file_name (args t)
      = match file_input inp with Some f => name f | None => text_input inp end /\
      is_direct_text t
      = Some (match file_input inp with Some _ => false | None => true end) /\
      arg_total_char_count (args t)
      = match file_input inp with
        | Some _ => 1000
        | None => String.length (text_input inp)
        end /\
      arg_lang_code (args t) = split_head " - " (language_str inp) /\
      arg_voice (args t) = voice inp /\
      arg_output_format (args t) = output_format inp /\
      arg_subtitle_mode (args t) = subtitle_mode inp /\
      thread_subtitle_format t = Some (subtitle_format inp).
Proof.
  intros env inp s s' r Hrun Hstarted.
  destruct (finished_job_thread env inp s s' r Hrun Hstarted)
    as (t & file_name & direct & sp & np & kp
        & Ht & Hin & Ha & Hd & Hf & _).
  exists t. rewrite Ha, Hd, Hf. cbn.
  rewrite determine_input_spec in Hin.
  destruct (file_input inp) as [f |].
  - injection Hin as <- <-. repeat split. exact Ht.
  - destruct (text_given inp); [| discriminate].
    injection Hin as <- <-. repeat split. exact Ht.
Qed.

Lemma job_input_comes_from_the_form_witness :
  let env := Sample.env Sample.pipeline (Sample.book, None) in
  let inp := Sample.form "  Hello " None in
  exists t,
    thread (snd (run_conversion env inp Sample.idle)) = Some t /\
    arg_file_name (args t) = "  Hello " /\
    is_direct_text t = Some true /\
    arg_total_char_count (args t) = 8 /\
    arg_lang_code (args t) = "a" /\
    arg_voice (args t) = "af_heart" /\
    arg_output_format (args t) = "mp3" /\
    arg_subtitle_mode (args t) = "Disabled" /\
    thread_subtitle_format t = Some "srt".
Proof.
  intros env inp.
  assert (Hrun : run_conversion env inp Sample.idle
                 = (Normal (py_join newline
                              ["Loading Kokoro pipeline..."; "Reading"; "Done"],
                            PStr "/app/output/book.mp3"),
                    snd (run_conversion env inp Sample.idle)))
    by (vm_compute; reflexivity).
  assert (Hstarted : worker_started (snd (run_conversion env inp Sample.idle)) = true)
    by (vm_compute; reflexivity).
  destruct (job_input_comes_from_the_form env inp Sample.idle _ _ Hrun Hstarted)
    as (t & Ht & Hrest).
  exists t. split; [exact Ht | exact Hrest].
Defined.

(** X9. The settings the form does not offer are the same for every
    job and at its end, whatever the engine published meanwhile:
    chapters are merged at the end and not saved separately, single
    newlines are not replaced, the output goes to the folder [output]
    of the working directory, the GPU is asked for and the job is not
    from a queue. *)
Theorem job_settings_are_fixed :
  forall (env : Env) (inp : Inputs) (s s' : State) (r : string * PyVal),
    run_conversion env inp s = (Normal r, s') ->
    worker_started s' = true ->
    exists t,
      thread s' = Some t /\
      merge_chapters_at_end t = Some true /\
      save_chapters_separately t = Some false /\
      replace_single_newlines t = Some false /\
      arg_output_folder (args t) = os_path_join (getcwd env) "output" /\
      arg_save_option (args t) = "Choose output folder" /\
      arg_use_gpu (args t) = true /\
      arg_from_queue (args t) = false.
Proof.
  intros env inp s s' r Hrun Hstarted.
  destruct (finished_job_thread env inp s s' r Hrun Hstarted)
    as (t & file_name & direct & sp & np & kp
        & Ht & _ & Ha & _ & _ & Hr & Hm & Hs).
  exists t. rewrite Ha. repeat split; assumption.
Qed.

Lemma job_settings_are_fixed_witness :
  let env := Sample.env Sample.pipeline (Sample.book, None) in
  let inp := Sample.form "Hello" (Some {| name := "/tmp/book.epub" |}) in
  exists t,
    thread (snd (run_conversion env inp Sample.idle)) = Some t /\
    merge_chapters_at_end t = Some true /\
    save_chapters_separately t = Some false /\
    replace_single_newlines t = Some false /\
    arg_output_folder (args t) = "/app/output" /\
    arg_save_option (args t) = "Choose output folder" /\
    arg_use_gpu (args t) = true /\
    arg_from_queue (args t) = false.
Proof.
  intros env inp.
  assert (Hrun : run_conversion env inp Sample.idle
                 = (Normal (py_join newline
                              ["Loading Kokoro pipeline..."; "Reading"; "Done"],
                            PStr "/app/output/book.mp3"),
                    snd (run_conversion env inp Sample.idle)))
    by (vm_compute; reflexivity).
  assert (Hstarted : worker_started (snd (run_conversion env inp Sample.idle)) = true)
    by (vm_compute; reflexivity).
  destruct (job_settings_are_fixed env inp Sample.idle _ _ Hrun Hstarted)
    as (t & Ht & Hrest).
  exists t. split; [exact Ht | exact Hrest].
Defined.

(** ** Notifications the subscribers cannot take *)

Lemma call_arity_mismatch (env : Env) (cb : Closure) (payload : list PyVal)
      (s : State) :
  List.length payload <> arity_of (kind cb) ->
  call env cb payload s
  = (Some (arity_error env (callback_name (kind cb)) payload), s).
Proof.
  intros Hlen. unfold call.
  destruct (kind cb); cbn [arity_of callback_name] in *.
  - destruct payload as [| x0 [| x1 [| x2 more]]]; try reflexivity.
    exfalso. now apply Hlen.
  - destruct payload as [| x0 [| x1 more]]; try reflexivity.
    exfalso. now apply Hlen.
  - destruct payload as [| x0 [| x1 [| x2 more]]]; try reflexivity.
    exfalso. now apply Hlen.
  - destruct payload as [| x0 [| x1 more]]; try reflexivity.
    exfalso. now apply Hlen.
Qed.

(** X10. A notification published with a number of arguments that no
    subscriber of its signal takes changes nothing but the output:
    [emit] returns normally, one line is printed for each subscriber,
    in order, for the [TypeError] of its call, and the engine's run goes
    on. *)
Theorem arity_mismatch_is_only_reported :
  forall (env : Env) (ch : Channel) (payload : list PyVal) (s : State)
         (t : ConversionThread),
    thread s = Some t ->
    (forall cb, In cb (MockSignal.callbacks (signals s ch)) ->
                List.length payload <> arity_of (kind cb)) ->
    engine_step env (Emit ch payload) s
    = (Normal tt,
       print_all (arity_reports env (MockSignal.callbacks (signals s ch)) payload) s).
Proof.
  intros env ch payload s t Ht Hall.
  unfold engine_step. rewrite Ht. unfold MockSignal.emit.
  rewrite for_each_total. f_equal.
  unfold print_all, arity_reports.
  revert Hall. generalize (MockSignal.callbacks (signals s ch)) as subs.
  intros subs. clear Ht. revert s.
  induction subs as [| cb rest IH]; intros s Hall; [reflexivity |].
  cbn [fold_left map].
  unfold MockSignal.after_delivery at 2.
  rewrite call_arity_mismatch by (apply Hall; now left).
  apply IH. intros cb' Hin. apply Hall. now right.
Qed.

Lemma arity_mismatch_is_only_reported_witness :
  let env := Sample.env Sample.pipeline (Sample.book, None) in
  let s := job_state Sample.after_first_job (Sample.hello_thread env) in
  engine_step env (Emit conversion_finished [PStr "/app/output/book.mp3"]) s
  = (Normal tt,
     print_all
       (arity_reports env (MockSignal.callbacks (signals s conversion_finished))
          [PStr "/app/output/book.mp3"]) s) /\
  List.length (MockSignal.callbacks (signals s conversion_finished)) = 2.
Proof.
  intros env s. split; [| reflexivity].
  apply (arity_mismatch_is_only_reported env conversion_finished
           [PStr "/app/output/book.mp3"] s (Sample.hello_thread env)).
  - reflexivity.
  - intros cb Hin. vm_compute in Hin.
    destruct Hin as [<- | [<- | []]]; simpl; lia.
Defined.

(** ** Progress display *)

Lemma lines_logged_with_progress (p : PyVal -> string -> option exn) (env : Env)
      (n : Channel -> nat) (steps : list EngineStep) :
  lines_logged (with_progress p env) n steps = lines_logged env n steps.
Proof.
  induction steps as [| [ch payload |] rest IH]; [reflexivity | | exact IH].
  cbn [lines_logged]. rewrite IH. reflexivity.
Qed.

(** X11. Whatever the progress display does with a progress
    notification, fail included, [run_conversion] returns the same
    thing. *)
Theorem progress_cannot_change_the_result :
  forall (p : PyVal -> string -> option exn) (env : Env) (inp : Inputs)
         (s : State),
    fst (run_conversion (with_progress p env) inp s)
    = fst (run_conversion env inp s).
Proof.
  intros p env inp s.
  destruct (started_job env inp) as [t0 |] eqn:Hjob.
  - rewrite (started_job_outcome env inp s t0 Hjob).
    rewrite (started_job_outcome (with_progress p env) inp s t0 Hjob).
    cbn [engine_run with_progress].
    unfold outcome_of, history.
    now rewrite lines_logged_with_progress.
  - revert Hjob. unfold started_job. run_handler.
    cbn [load_numpy_kpipeline getcwd makedirs py_float init_fault start_fault
         with_progress].
    destruct (determine_input inp) as [[file_name direct] |]; [| reflexivity].
    destruct (load_numpy_kpipeline env) as [e | [np kp]]; [reflexivity |].
    destruct (makedirs env _); [reflexivity |].
    destruct (py_float env (speed inp)) as [e | sp]; [reflexivity |].
    change (job_args (with_progress p env)) with (job_args env).
    destruct (init_fault env _); [reflexivity |].
    destruct (start_fault env); [reflexivity | discriminate].
Qed.

(** ** Subscribers are never disconnected *)

Lemma kinds_retired (n : nat) (subs : list Closure) :
  map kind (map (retire n) subs) = map kind subs.
Proof.
  induction subs as [| [k [| m]] rest IH]; [reflexivity | |];
    cbn [map retire owner kind]; now rewrite IH.
Qed.

(** X12. A job that starts a worker leaves, on each signal, the
    subscribers that were there and, after them, its own closure, and
    so one more [on_log] closure on [log_updated]: nothing is ever
    disconnected, and the next job finds them. *)
Theorem subscribers_accumulate :
  forall (env : Env) (inp : Inputs) (s : State) (t0 : ConversionThread)
         (ch : Channel),
    started_job env inp = Some t0 ->
    let s' := snd (run_conversion env inp s) in
    map kind (MockSignal.callbacks (signals s' ch))
    = map kind (MockSignal.callbacks (signals s ch)) ++ [handler_of ch] /\
    loggers (MockSignal.callbacks (signals s' ch))
    = loggers (MockSignal.callbacks (signals s ch)) + once ch.
Proof.
  intros env inp s t0 ch Hjob s'. unfold s'.
  destruct (run_conversion_thread env inp s t0 Hjob)
    as (t & _ & _ & _ & _ & Hsig & _).
  rewrite Hsig. split.
  - rewrite job_state_signals, map_app, kinds_retired. reflexivity.
  - apply job_state_listeners.
Qed.

Lemma subscribers_accumulate_witness :
  let env := Sample.env Sample.pipeline (Sample.book, None) in
  let s' := snd (run_conversion env (Sample.form "Hello" None)
                   Sample.after_first_job) in
  map kind (MockSignal.callbacks (signals s' log_updated)) = [on_log; on_log] /\
  loggers (MockSignal.callbacks (signals s' log_updated)) = 2.
Proof.
  intros env.
  exact (subscribers_accumulate env (Sample.form "Hello" None)
           Sample.after_first_job (Sample.hello_thread env) log_updated eq_refl).
Defined.
